(** * The VPN shop bot (multilingual_bot.py): entitlement and navigation

    A shallow embedding of the handlers of [multilingual_bot.py] and the
    laws of its subscription/payment engine and of its menu dispatcher.

    Conventions of the model.
    - A Python [str] is a [string] (a byte string); the parse [int(s)] is
      modelled on ASCII input (Python also accepts non-ASCII decimal digits
      and spaces).
    - A [datetime] is a [Z]: microseconds since a fixed origin; the range of
      [datetime] (years 1 to 9999) is not modelled, so [datetime + timedelta]
      never overflows.
    - A Python exception is the [Raise] result of the handler monad.
    - The SQLite file is a [Store]; a connection is a working copy of it
      that [commit] publishes. *)

From Stdlib Require Import ZArith String Ascii List Bool Lia.
From stdpp Require Import base option list gmap strings pretty.
Import ListNotations.

#[local] Open Scope string_scope.
#[local] Open Scope list_scope.
#[local] Open Scope Z_scope.

(** ** Exceptions and results *)

Inductive exn : Type :=
| IndexError | KeyError | ValueError | TypeError | OperationalError.

Inductive result (A : Type) : Type :=
| Ok (a : A)
| Raise (e : exn).
Arguments Ok {A} a.
Arguments Raise {A} e.

Definition rbind {A B} (r : result A) (k : A -> result B) : result B :=
  match r with Ok a => k a | Raise e => Raise e end.

Definition is_raise {A} (r : result A) : bool :=
  match r with Ok _ => false | Raise _ => true end.

(** ** Python strings *)

(** [s.split(sep)] for a one-character separator: never empty. *)
Fixpoint split (sep : ascii) (s : string) : list string :=
  match s with
  | EmptyString => [EmptyString]
  | String c s' =>
      if Ascii.eqb c sep then EmptyString :: split sep s'
      else match split sep s' with
           | w :: ws => String c w :: ws
           | [] => [String c EmptyString]
           end
  end.

(** [s.startswith(p)] *)
Definition startswith (s p : string) : bool := String.prefix p s.

(** [s[n:]] *)
Fixpoint drop_str (n : nat) (s : string) : string :=
  match n, s with
  | O, _ => s
  | S n', String _ s' => drop_str n' s'
  | S _, EmptyString => EmptyString
  end.

Definition is_space (c : ascii) : bool :=
  let n := nat_of_ascii c in
  ((9 <=? n) && (n <=? 13) || (28 <=? n) && (n <=? 32))%nat.

Definition digit_value (c : ascii) : option Z :=
  let n := nat_of_ascii c in
  if ((48 <=? n) && (n <=? 57))%nat then Some (Z.of_nat n - 48) else None.

Fixpoint lstrip (s : string) : string :=
  match s with
  | String c s' => if is_space c then lstrip s' else s
  | EmptyString => EmptyString
  end.

(** Digits with single underscores between them, up to trailing spaces.
    [prev] tells whether the previous character was a digit. *)
Fixpoint int_digits (s : string) (acc : Z) (prev : bool) : option Z :=
  match s with
  | EmptyString => if prev then Some acc else None
  | String c s' =>
      match digit_value c with
      | Some d => int_digits s' (10 * acc + d) true
      | None =>
          if Ascii.eqb c "_" then
            if prev then
              match s' with
              | String c' _ =>
                  match digit_value c' with
                  | Some _ => int_digits s' acc false
                  | None => None
                  end
              | EmptyString => None
              end
            else None
          else if prev && String.eqb (lstrip s) EmptyString then Some acc
          else None
      end
  end.

(** [int(s)]: [None] stands for [ValueError]. *)
Definition int_of_str (s : string) : option Z :=
  match lstrip s with
  | String "-" r => Z.opp <$> int_digits r 0 false
  | String "+" r => int_digits r 0 false
  | r => int_digits r 0 false
  end.

Definition py_int (s : string) : result Z :=
  match int_of_str s with Some z => Ok z | None => Raise ValueError end.

(** [l[i]] on a Python list: a negative index counts from the end. *)
Definition py_index {A} (l : list A) (i : Z) : result A :=
  let n := Z.of_nat (length l) in
  let j := if i <? 0 then i + n else i in
  if (0 <=? j) && (j <? n) then
    match l !! Z.to_nat j with
    | Some x => Ok x
    | None => Raise IndexError
    end
  else Raise IndexError.

(** [d[k]] on a Python dict with string keys. *)
Definition py_getitem {V} (d : gmap string V) (k : string) : result V :=
  match d !! k with Some v => Ok v | None => Raise KeyError end.

(** [str(n)] for an [int] *)
Definition str (n : Z) : string := pretty n.

(** ** Time *)

(** [timedelta(days=d)] in microseconds *)
Definition timedelta_days (d : Z) : Z := d * 86400000000.

(** [delta.days]: timedeltas are normalised with non-negative seconds and
    microseconds, so the days are the floor. *)
Definition td_days (delta : Z) : Z := delta / 86400000000.

(** ** Configuration ([load_config]) *)

Record Config : Type := {
  bot_token : string;
  admin_ids : list Z;
  trial_days : Z;
  referred_trial_days : Z;
  support_username : string;
  payment_provider_token : string;
  webhook_url : string;
}.

(** The module global [ADMIN_IDS = config.get("admin_ids", [])]; the other
    globals bound from [config] reach no handler. *)
Definition ADMIN_IDS (config : Config) : list Z := admin_ids config.

(** ** The catalog ([PLANS]) *)

Record Plan : Type := {
  name : string;
  devices : Z;
  prices : gmap string Z;
}.

Definition PLANS_durations : list Z := [30; 60; 180; 365].

Definition mk_prices (p30 p60 p180 p365 : Z) : gmap string Z :=
  <["30" := p30]> (<["60" := p60]> (<["180" := p180]> (<["365" := p365]> ∅))).

Definition PLANS_plans : list Plan := [
  {| name := "Basic";    devices := 1; prices := mk_prices 5 9 25 45 |};
  {| name := "Standard"; devices := 3; prices := mk_prices 10 18 50 90 |};
  {| name := "Premium";  devices := 5; prices := mk_prices 15 27 75 135 |}
].

(** The keys of [TRANSLATIONS], in the order of the dict. *)
Definition LANGUAGES : list string := ["en"; "ru"; "hi"; "ar"].

(** ** The database *)

(** A row of [users]. BOOLEAN columns hold integers; [total_paid] is REAL
    and only ever receives sums of catalog prices, which are integers. *)
Record User : Type := {
  user_id : Z;
  username : option string;
  first_name : string;
  language_code : string;
  created_at : Z;
  referrer_id : option Z;
  subscription_end : option Z;
  is_trial_used : Z;
  is_blocked : Z;
  total_paid : Z;
}.

(** A row of [subscriptions]; the AUTOINCREMENT id is the position. *)
Record Subscription : Type := {
  s_user_id : Z;
  s_plan_name : string;
  s_devices : Z;
  s_duration_days : Z;
  s_price : Z;
  s_currency : string;
  s_payment_method : string;
  s_started_at : Z;
  s_expires_at : Z;
  s_config_url : string;
  s_is_active : Z;
}.

(** A row of [payments]. *)
Record Payment : Type := {
  p_user_id : Z;
  p_amount : Z;
  p_currency : string;
  p_payment_method : string;
  p_payment_id : string;
  p_status : string;
  p_created_at : Z;
}.

Record Store : Type := {
  users : gmap Z User;
  subscriptions : list Subscription;
  payments : list Payment;
}.

(** [init_db] on a fresh file *)
Definition empty_store : Store :=
  {| users := ∅; subscriptions := []; payments := [] |}.

(** The statements the handlers execute. [ts] is the value SQLite takes for
    a CURRENT_TIMESTAMP default. *)
Inductive stmt : Type :=
| INSERT_OR_IGNORE_users (uid : Z) (uname : option string) (fname language : string)
                         (referrer : option Z) (ts : Z)
| UPDATE_users_language (language : string) (uid : Z)
| UPDATE_users_trial (expires_at : Z) (uid : Z)
| UPDATE_users_purchase (new_end price : Z) (uid : Z)
| INSERT_subscriptions (uid : Z) (plan_name : string) (devs duration price : Z)
                       (method : string) (started_at expires_at : Z) (config_url : string)
| INSERT_payments (uid amount : Z) (currency method payment_id status : string) (ts : Z).

Definition set_users (f : gmap Z User -> gmap Z User) (s : Store) : Store :=
  {| users := f (users s); subscriptions := subscriptions s; payments := payments s |}.

Definition with_language (l : string) (u : User) : User :=
  {| user_id := user_id u; username := username u; first_name := first_name u;
     language_code := l; created_at := created_at u; referrer_id := referrer_id u;
     subscription_end := subscription_end u; is_trial_used := is_trial_used u;
     is_blocked := is_blocked u; total_paid := total_paid u |}.

Definition with_trial (expires_at : Z) (u : User) : User :=
  {| user_id := user_id u; username := username u; first_name := first_name u;
     language_code := language_code u; created_at := created_at u;
     referrer_id := referrer_id u;
     subscription_end := Some expires_at; is_trial_used := 1;
     is_blocked := is_blocked u; total_paid := total_paid u |}.

Definition with_purchase (new_end price : Z) (u : User) : User :=
  {| user_id := user_id u; username := username u; first_name := first_name u;
     language_code := language_code u; created_at := created_at u;
     referrer_id := referrer_id u;
     subscription_end := Some new_end; is_trial_used := is_trial_used u;
     is_blocked := is_blocked u; total_paid := total_paid u + price |}.

Definition run_stmt (q : stmt) (s : Store) : Store :=
  match q with
  | INSERT_OR_IGNORE_users uid uname fname language referrer ts =>
      match users s !! uid with
      | Some _ => s
      | None =>
          set_users (insert uid
            {| user_id := uid; username := uname; first_name := fname;
               language_code := language; created_at := ts; referrer_id := referrer;
               subscription_end := None; is_trial_used := 0; is_blocked := 0;
               total_paid := 0 |}) s
      end
  | UPDATE_users_language language uid =>
      set_users (alter (with_language language) uid) s
  | UPDATE_users_trial expires_at uid =>
      set_users (alter (with_trial expires_at) uid) s
  | UPDATE_users_purchase new_end price uid =>
      set_users (alter (with_purchase new_end price) uid) s
  | INSERT_subscriptions uid plan_name devs duration price method started_at expires_at config_url =>
      {| users := users s;
         subscriptions := subscriptions s ++
           [{| s_user_id := uid; s_plan_name := plan_name; s_devices := devs;
               s_duration_days := duration; s_price := price; s_currency := "USD";
               s_payment_method := method; s_started_at := started_at;
               s_expires_at := expires_at; s_config_url := config_url;
               s_is_active := 1 |}];
         payments := payments s |}
  | INSERT_payments uid amount currency method payment_id status ts =>
      {| users := users s; subscriptions := subscriptions s;
         payments := payments s ++
           [{| p_user_id := uid; p_amount := amount; p_currency := currency;
               p_payment_method := method; p_payment_id := payment_id;
               p_status := status; p_created_at := ts |}] |}
  end.

(** ** What the bot sends *)

(** Message text, kept symbolic: the localisation tables are content. *)
#[warnings="-register-all"]
Inductive Text : Type :=
| Lit (s : string)
| Num (z : Z)
| Date (fmt : string) (ts : Z)
| Monthly (price duration : Z)
| Tr (lang key : string) (kwargs : list (string * Text))
| Cat (a b : Text).

Record Button : Type := InlineKeyboardButton {
  label : Text;
  callback_data : string;
}.

Definition Keyboard : Type := list (list Button).

Inductive Effect : Type :=
| answer (text : option string)
| edit_message_text (message : Text) (reply_markup : Keyboard)
| reply_text (message : Text) (reply_markup : Keyboard)
| send_invoice (chat_id : Z) (title description payload currency : string) (amount : Z)
| pre_checkout_answer (ok : bool).

(** The callback data a keyboard offers, row by row. *)
Definition options (k : Keyboard) : list string :=
  callback_data <$> concat k.

(** ** The world a handler runs in *)

(** Handlers run one at a time on the event loop, and none awaits between
    [sqlite3.connect] and [conn.commit], so a connection works on the store
    as committed when it was opened. The clock is read by [datetime.now()]
    and by SQLite for a CURRENT_TIMESTAMP default; nothing is assumed of
    its successive readings. *)
Record World : Type := {
  db : Store;                 (* committed contents of DB_PATH *)
  user_data : gmap Z Z;       (* context.user_data['referrer_id'], per user *)
  out : list Effect;          (* what was sent, oldest first *)
  time : nat -> Z;            (* the successive readings of the clock *)
  ticks : nat;                (* readings taken so far *)
  fault : option nat;         (* database calls left before the store fails *)
}.

Definition set_db (s : Store) (w : World) : World :=
  {| db := s; user_data := user_data w; out := out w;
     time := time w; ticks := ticks w; fault := fault w |}.
Definition set_user_data (d : gmap Z Z) (w : World) : World :=
  {| db := db w; user_data := d; out := out w;
     time := time w; ticks := ticks w; fault := fault w |}.
Definition set_out (o : list Effect) (w : World) : World :=
  {| db := db w; user_data := user_data w; out := o;
     time := time w; ticks := ticks w; fault := fault w |}.
Definition set_ticks (n : nat) (w : World) : World :=
  {| db := db w; user_data := user_data w; out := out w;
     time := time w; ticks := n; fault := fault w |}.
Definition set_fault (f : option nat) (w : World) : World :=
  {| db := db w; user_data := user_data w; out := out w;
     time := time w; ticks := ticks w; fault := f |}.

(** Handlers: state and exceptions. A raise keeps the world as it is at
    that point; uncommitted connections are simply dropped. *)
Definition H (A : Type) : Type := World -> result A * World.

#[export] Instance H_ret : MRet H := fun A a w => (Ok a, w).
#[export] Instance H_bind : MBind H := fun A B k m w =>
  match m w with
  | (Ok a, w') => k a w'
  | (Raise e, w') => (Raise e, w')
  end.

Definition raise {A} (e : exn) : H A := fun w => (Raise e, w).

Definition lift {A} (r : result A) : H A := fun w => (r, w).

Definition emit (e : Effect) : H unit :=
  fun w => (Ok tt, set_out (out w ++ [e]) w).

(** [datetime.now()] *)
Definition datetime_now : H Z :=
  fun w => (Ok (time w (ticks w)), set_ticks (S (ticks w)) w).

(** Every call into sqlite3 may raise once the store has failed. *)
Definition db_call : H unit :=
  fun w => match fault w with
           | None => (Ok tt, w)
           | Some (S n) => (Ok tt, set_fault (Some n) w)
           | Some O => (Raise OperationalError, w)
           end.

(** [sqlite3.connect(DB_PATH)]: the connection sees the committed store. *)
Definition sqlite3_connect : H Store := fun w => (Ok (db w), w).

(** [conn.execute(UPDATE/INSERT ...)]: changes the connection's copy only. *)
Definition execute (conn : Store) (q : stmt) : H Store :=
  db_call;; mret (run_stmt q conn).

(** [cursor.execute(SELECT ...); cursor.fetchone()] *)
Definition fetchone {A} (conn : Store) (sel : Store -> A) : H A :=
  db_call;; mret (sel conn).

(** [conn.commit()] publishes the connection's copy. *)
Definition publish (conn : Store) : H unit :=
  fun w => (Ok tt, set_db conn w).

Definition commit (conn : Store) : H unit :=
  db_call;; publish conn.

(** ** class Database *)

Definition get_user (uid : Z) : H (option User) :=
  conn ← sqlite3_connect;
  fetchone conn (fun s => users s !! uid).

Definition create_user (uid : Z) (uname : option string) (fname language : string)
    (referrer : option Z) : H unit :=
  conn ← sqlite3_connect;
  ts ← datetime_now;
  conn ← execute conn (INSERT_OR_IGNORE_users uid uname fname language referrer ts);
  commit conn.

Definition set_language (uid : Z) (language : string) : H unit :=
  conn ← sqlite3_connect;
  conn ← execute conn (UPDATE_users_language language uid);
  commit conn.

Definition get_language (uid : Z) : H string :=
  user ← get_user uid;
  mret (match user with Some u => language_code u | None => "en" end).

(** ** Helpers *)

(** [t(user_id, key, **kwargs)]: every key the handlers use is in every
    table, so only the language falls back. *)
Definition t (uid : Z) (key : string) (kwargs : list (string * Text)) : H Text :=
  lang ← get_language uid;
  mret (Tr (if bool_decide (lang ∈ LANGUAGES) then lang else "en") key kwargs).

Definition get_language_keyboard : Keyboard :=
  (fun code => [InlineKeyboardButton
                  (Cat (Tr code "flag" []) (Cat (Lit " ") (Tr code "name" [])))
                  ("lang_" +:+ code)]) <$> LANGUAGES.

(** A button whose label is [t(user_id, key)]. *)
Definition t_button (uid : Z) (key cb : string) : H Button :=
  l ← t uid key [];
  mret (InlineKeyboardButton l cb).

(** ** Telegram objects *)

Record TgUser : Type := {
  tg_id : Z;
  tg_username : option string;
  tg_first_name : string;
}.

(** [update.callback_query] *)
Record CallbackQuery : Type := {
  data : string;
  from_user : TgUser;
}.

(** The update of a [/start] command, with [context.args]. *)
Record StartUpdate : Type := {
  effective_user : TgUser;
  args : list string;
}.

(** The update of a successful payment. *)
Record PaymentUpdate : Type := {
  payer : TgUser;
  invoice_payload : string;
  currency : string;
  telegram_payment_charge_id : string;
}.

(** Truth value of an integer and of an optional integer. *)
Definition truthy (z : Z) : bool := negb (z =? 0).
Definition truthy_opt (o : option Z) : bool :=
  match o with Some z => truthy z | None => false end.

(** ** Handlers *)

Definition get_main_menu (config : Config) (uid : Z) : H Keyboard :=
  user ← get_user uid;
  keyboard ← (if match user with None => true | Some u => is_trial_used u =? 0 end
    then
      b_trial ← t_button uid "btn_trial" "trial";
      b_buy ← t_button uid "btn_buy" "plans";
      b_about ← t_button uid "btn_about" "about";
      b_support ← t_button uid "btn_support" "support";
      b_language ← t_button uid "btn_language" "change_lang";
      mret [[b_trial]; [b_buy]; [b_about; b_support]; [b_language]]
    else
      b_buy ← t_button uid "btn_buy" "plans";
      b_account ← t_button uid "btn_account" "account";
      b_referral ← t_button uid "btn_referral" "referrals";
      b_promo ← t_button uid "btn_promo" "promocode";
      b_help ← t_button uid "btn_help" "help";
      b_support ← t_button uid "btn_support" "support";
      b_language ← t_button uid "btn_language" "change_lang";
      mret [[b_buy]; [b_account]; [b_referral; b_promo]; [b_help; b_support];
            [b_language]]);
  if bool_decide (uid ∈ ADMIN_IDS config) then
    b_admin ← t_button uid "btn_admin" "admin";
    mret (keyboard ++ [[b_admin]])
  else mret keyboard.

Definition get_subscription_status (uid : Z) : H Text :=
  user ← get_user uid;
  match user ≫= subscription_end with
  | None => t uid "status_no_sub" []
  | Some sub_end =>
      now ← datetime_now;
      if sub_end <? now then t uid "status_expired" []
      else
        now' ← datetime_now;
        let days_left := td_days (sub_end - now') in
        t uid "status_active" [("days", Num days_left)]
  end.

(** [context.user_data['referrer_id'] = referrer_id] *)
Definition remember_referrer (uid r : Z) : H unit :=
  fun w => (Ok tt, set_user_data (<[uid := r]> (user_data w)) w).

(** [context.user_data.get('referrer_id', None)] *)
Definition pending_referrer (uid : Z) : H (option Z) :=
  fun w => (Ok (user_data w !! uid), w).

Definition start (config : Config) (update : StartUpdate) : H unit :=
  let user := effective_user update in
  let referrer_id :=
    match args update with
    | a0 :: _ => if startswith a0 "ref" then int_of_str (drop_str 3 a0) else None
    | [] => None
    end in
  db_user ← get_user (tg_id user);
  match db_user with
  | None =>
      let message :=
        Lit ("🌍 <b>Welcome! / Добро пожаловать! / स्वागत! / مرحباً!</b>\n\n"
             +:+ "Please select your language:\n"
             +:+ "Пожалуйста, выберите язык:\n"
             +:+ "कृपया अपनी भाषा चुनें:\n"
             +:+ "يرجى اختيار لغتك:") in
      match referrer_id with
      | Some r => if truthy r then remember_referrer (tg_id user) r else mret tt
      | None => mret tt
      end;;
      emit (reply_text message get_language_keyboard)
  | Some _ =>
      status ← get_subscription_status (tg_id user);
      message ← t (tg_id user) "welcome_back"
                  [("name", Lit (tg_first_name user)); ("status", status)];
      keyboard ← get_main_menu config (tg_id user);
      emit (reply_text message keyboard)
  end.

Definition handle_trial (query : CallbackQuery) : H unit :=
  let uid := tg_id (from_user query) in
  user ← get_user uid;
  match user with
  | None => raise TypeError
  | Some user =>
      '(message, keyboard) ← (if truthy (is_trial_used user)
        then
          message ← t uid "trial_used" [];
          b_buy ← t_button uid "btn_buy" "plans";
          b_back ← t_button uid "btn_back" "back_main";
          mret (message, [[b_buy]; [b_back]])
        else
          let days := if truthy_opt (referrer_id user) then 7 else 3 in
          now ← datetime_now;
          let expires_at := now + timedelta_days days in
          let config_url := "vless://trial-" +:+ str uid +:+ "@demo.server:443" in
          conn ← sqlite3_connect;
          conn ← execute conn (UPDATE_users_trial expires_at uid);
          commit conn;;
          message ← t uid "trial_activated"
                      [("days", Num days);
                       ("expires", Date "%Y-%m-%d %H:%M" expires_at);
                       ("config", Lit config_url)];
          b_buy ← t_button uid "btn_buy" "plans";
          b_back ← t_button uid "btn_back" "back_main";
          mret (message, [[b_buy]; [b_back]]));
      emit (edit_message_text message keyboard)
  end.

(** The loop of [show_plans] over [enumerate(PLANS['plans'])]. *)
Fixpoint show_plans_loop (uid : Z) (i : Z) (plans : list Plan)
    (message : Text) (keyboard : Keyboard) : H (Text * Keyboard) :=
  match plans with
  | [] => mret (message, keyboard)
  | plan :: rest =>
      let plural := if 1 <? devices plan then "s" else "" in
      price ← lift (py_getitem (prices plan) "30");
      item ← t uid "plan_item"
               [("name", Lit (name plan)); ("devices", Num (devices plan));
                ("plural", Lit plural); ("price", Num price)];
      let b := InlineKeyboardButton
                 (Cat (Lit ("📱 " +:+ name plan))
                      (Cat (Lit " (") (Cat (Num (devices plan))
                           (Lit (" device" +:+ plural +:+ ")")))))
                 ("plan_" +:+ str i) in
      show_plans_loop uid (i + 1) rest (Cat message item) (keyboard ++ [[b]])
  end.

Definition show_plans (query : CallbackQuery) : H unit :=
  let uid := tg_id (from_user query) in
  message ← t uid "plans_title" [];
  '(message, keyboard) ← show_plans_loop uid 0 PLANS_plans message [];
  features ← t uid "plans_features" [];
  b_back ← t_button uid "btn_back" "back_main";
  emit (edit_message_text (Cat message features) (keyboard ++ [[b_back]])).

(** The loop of [show_durations] over [PLANS['durations']]. *)
Fixpoint show_durations_loop (uid : Z) (plan_index : Z) (plan : Plan)
    (durations : list Z) (message : Text) (keyboard : Keyboard)
    : H (Text * Keyboard) :=
  match durations with
  | [] => mret (message, keyboard)
  | duration :: rest =>
      price ← lift (py_getitem (prices plan) (str duration));
      let label := if duration <? 365
                   then Cat (Num duration) (Lit " days") else Lit "1 year" in
      item ← t uid "duration_item"
               [("label", label); ("price", Num price);
                ("monthly", Monthly price duration)];
      let b := InlineKeyboardButton
                 (Cat (Lit "⏱ ") (Cat label (Cat (Lit " - $") (Num price))))
                 ("dur_" +:+ str plan_index +:+ "_" +:+ str duration) in
      show_durations_loop uid plan_index plan rest (Cat message item)
                          (keyboard ++ [[b]])
  end.

Definition show_durations (query : CallbackQuery) (plan_index : Z) : H unit :=
  let uid := tg_id (from_user query) in
  plan ← lift (py_index PLANS_plans plan_index);
  message ← t uid "duration_title"
              [("plan_name", Lit (name plan)); ("devices", Num (devices plan))];
  '(message, keyboard) ←
     show_durations_loop uid plan_index plan PLANS_durations message [];
  b_back ← t_button uid "btn_back" "plans";
  emit (edit_message_text message (keyboard ++ [[b_back]])).

Definition show_payment_methods (query : CallbackQuery) (plan_index duration : Z)
    : H unit :=
  let uid := tg_id (from_user query) in
  plan ← lift (py_index PLANS_plans plan_index);
  price ← lift (py_getitem (prices plan) (str duration));
  message ← t uid "payment_title"
              [("plan", Cat (Lit (name plan))
                            (Cat (Lit " (") (Cat (Num (devices plan)) (Lit " devices)"))));
               ("duration", Num duration); ("price", Num price)];
  let suffix := str plan_index +:+ "_" +:+ str duration in
  b_back ← t_button uid "btn_back" ("plan_" +:+ str plan_index);
  emit (edit_message_text message
    [[InlineKeyboardButton (Lit "⭐ Telegram Stars") ("pay_stars_" +:+ suffix)];
     [InlineKeyboardButton (Lit "💳 Credit Card (Demo)") ("pay_card_" +:+ suffix)];
     [InlineKeyboardButton (Lit "🪙 Crypto (Demo)") ("pay_crypto_" +:+ suffix)];
     [b_back]]).

Definition process_payment (query : CallbackQuery) (uid : Z) (method : string)
    (plan_index duration : Z) : H unit :=
  plan ← lift (py_index PLANS_plans plan_index);
  price ← lift (py_getitem (prices plan) (str duration));
  if String.eqb method "stars" then
    let title := name plan +:+ " Plan - " +:+ str duration +:+ " days" in
    let description := "VPN subscription for " +:+ str duration +:+ " days with "
                       +:+ str (devices plan) +:+ " devices" in
    let payload := "plan_" +:+ str plan_index +:+ "_dur_" +:+ str duration in
    emit (send_invoice uid title description payload "XTR" (price * 100));;
    emit (answer (Some "Opening payment window..."))
  else
    (* Demo payment *)
    conn ← sqlite3_connect;
    current_time ← datetime_now;
    result ← fetchone conn (fun s => users s !! uid);
    let current_end :=
      match result ≫= subscription_end with Some e => e | None => current_time end in
    let current_end :=
      if current_end <? current_time then current_time else current_end in
    let new_end := current_end + timedelta_days duration in
    conn ← execute conn (UPDATE_users_purchase new_end price uid);
    let config_url := "vless://sub-" +:+ str uid +:+ "@demo.server:443" in
    conn ← execute conn
      (INSERT_subscriptions uid (name plan) (devices plan) duration price method
                            current_time new_end config_url);
    commit conn;;
    message ← t uid "payment_success"
                [("plan", Lit (name plan)); ("duration", Num duration);
                 ("price", Num price); ("expires", Date "%Y-%m-%d" new_end);
                 ("config", Lit config_url)];
    b_account ← t_button uid "btn_account" "account";
    b_buy ← t_button uid "btn_buy" "plans";
    b_referral ← t_button uid "btn_referral" "referrals";
    emit (edit_message_text message [[b_account]; [b_buy]; [b_referral]]).

Definition precheckout_callback : H unit :=
  emit (pre_checkout_answer true).

Definition successful_payment_callback (update : PaymentUpdate) : H unit :=
  let uid := tg_id (payer update) in
  let parts := split "_" (invoice_payload update) in
  plan_index ← lift (rbind (py_index parts 1) py_int);
  duration ← lift (rbind (py_index parts 3) py_int);
  plan ← lift (py_index PLANS_plans plan_index);
  price ← lift (py_getitem (prices plan) (str duration));
  conn ← sqlite3_connect;
  current_time ← datetime_now;
  result ← fetchone conn (fun s => users s !! uid);
  let current_end :=
    match result ≫= subscription_end with Some e => e | None => current_time end in
  let current_end :=
    if current_end <? current_time then current_time else current_end in
  let new_end := current_end + timedelta_days duration in
  conn ← execute conn (UPDATE_users_purchase new_end price uid);
  let config_url := "vless://paid-" +:+ str uid +:+ "@demo.server:443" in
  conn ← execute conn
    (INSERT_subscriptions uid (name plan) (devices plan) duration price
                          "telegram_stars" current_time new_end config_url);
  created ← datetime_now;
  conn ← execute conn
    (INSERT_payments uid price (currency update) "telegram_stars"
                     (telegram_payment_charge_id update) "completed" created);
  commit conn;;
  message ← t uid "payment_success"
              [("plan", Lit (name plan)); ("duration", Num duration);
               ("price", Num price); ("expires", Date "%Y-%m-%d" new_end);
               ("config", Lit config_url)];
  b_account ← t_button uid "btn_account" "account";
  b_buy ← t_button uid "btn_buy" "plans";
  emit (reply_text message [[b_account]; [b_buy]]).

Definition back_to_main (config : Config) (query : CallbackQuery) : H unit :=
  let uid := tg_id (from_user query) in
  status ← get_subscription_status uid;
  message ← t uid "welcome_back"
              [("name", Lit (tg_first_name (from_user query))); ("status", status)];
  keyboard ← get_main_menu config uid;
  emit (edit_message_text message keyboard).

Definition button_handler (config : Config) (query : CallbackQuery) : H unit :=
  emit (answer None);;
  let data := data query in
  let uid := tg_id (from_user query) in
  if startswith data "lang_" then
    lang ← lift (py_index (split "_" data) 1);
    existing_user ← get_user uid;
    match existing_user with
    | Some _ =>
        set_language uid lang;;
        status ← get_subscription_status uid;
        message ← t uid "welcome_back"
                    [("name", Lit (tg_first_name (from_user query)));
                     ("status", status)];
        keyboard ← get_main_menu config uid;
        emit (edit_message_text message keyboard)
    | None =>
        referrer_id ← pending_referrer uid;
        create_user uid (tg_username (from_user query))
                    (tg_first_name (from_user query)) lang referrer_id;;
        m1 ← t uid "welcome" [("name", Lit (tg_first_name (from_user query)))];
        m2 ← (if truthy_opt referrer_id then t uid "welcome_referred" []
              else t uid "welcome_trial" []);
        m3 ← t uid "choose_option" [];
        keyboard ← get_main_menu config uid;
        emit (edit_message_text (Cat (Cat m1 m2) m3) keyboard)
    end
  else if String.eqb data "change_lang" then
    l ← t uid "btn_language" [];
    emit (edit_message_text (Cat l (Lit "\n\nSelect your language:"))
                            get_language_keyboard)
  else if String.eqb data "trial" then handle_trial query
  else if String.eqb data "plans" then show_plans query
  else if startswith data "plan_" then
    plan_index ← lift (rbind (py_index (split "_" data) 1) py_int);
    show_durations query plan_index
  else if startswith data "dur_" then
    match split "_" data with
    | [_; plan_index; duration] =>
        plan_index ← lift (py_int plan_index);
        duration ← lift (py_int duration);
        show_payment_methods query plan_index duration
    | _ => raise ValueError
    end
  else if startswith data "pay_" then
    let parts := split "_" data in
    method ← lift (py_index parts 1);
    plan_index ← lift (rbind (py_index parts 2) py_int);
    duration ← lift (rbind (py_index parts 3) py_int);
    process_payment query uid method plan_index duration
  else if String.eqb data "back_main" then back_to_main config query
  else mret tt.

(** ** The bot as a state machine *)

Inductive Event : Type :=
| ev_start (update : StartUpdate)
| ev_button (query : CallbackQuery)
| ev_pre_checkout
| ev_payment (update : PaymentUpdate)
| ev_store (f : option nat).     (* the store's availability changes *)

(** One turn; an exception ends the turn and the bot goes on. *)
Definition turn (config : Config) (e : Event) (w : World) : World :=
  match e with
  | ev_start update => snd (start config update w)
  | ev_button query => snd (button_handler config query w)
  | ev_pre_checkout => snd (precheckout_callback w)
  | ev_payment update => snd (successful_payment_callback update w)
  | ev_store f => set_fault f w
  end.

Definition run (config : Config) (evs : list Event) (w : World) : World :=
  foldl (fun w e => turn config e w) w evs.

(** The worlds after each turn. *)
Fixpoint trace (config : Config) (evs : list Event) (w : World) : list World :=
  match evs with
  | [] => [w]
  | e :: evs' => w :: trace config evs' (turn config e w)
  end.

Definition initial (clock : nat -> Z) (f : option nat) : World :=
  {| db := empty_store; user_data := ∅; out := []; time := clock; ticks := 0;
     fault := f |}.

Inductive reachable (config : Config) : World -> Prop :=
| reach_initial clock f : reachable config (initial clock f)
| reach_turn w e : reachable config w -> reachable config (turn config e w).

(** The language [t] renders in for a user. *)
Definition lang_of (s : Store) (uid : Z) : string :=
  let lang := match users s !! uid with Some u => language_code u | None => "en" end in
  if bool_decide (lang ∈ LANGUAGES) then lang else "en".

Arguments str : simpl never.

(** ** The specification's vocabulary *)

(** Section 4.1, [StatusOf]: [NoSubscription] if the expiry is absent,
    [Expired] if it is before now, else [Active] with the whole days left. *)
Inductive Status : Type :=
| NoSubscription
| Expired
| Active (daysLeft : Z).


(** How a status is shown to the user. *)
Definition status_text (lang : string) (s : Status) : Text :=
  match s with
  | NoSubscription => Tr lang "status_no_sub" []
  | Expired => Tr lang "status_expired" []
  | Active d => Tr lang "status_active" [("days", Num d)]
  end.

(** Section 4.2, the two variants of the main menu, as (label, action). *)
Definition pre_trial_menu : list (string * string) :=
  [("btn_trial", "trial"); ("btn_buy", "plans"); ("btn_about", "about");
   ("btn_support", "support"); ("btn_language", "change_lang")].

Definition post_trial_menu : list (string * string) :=
  [("btn_buy", "plans"); ("btn_account", "account"); ("btn_referral", "referrals");
   ("btn_promo", "promocode"); ("btn_help", "help"); ("btn_support", "support");
   ("btn_language", "change_lang")].

Definition admin_entry : list (string * string) := [("btn_admin", "admin")].

(** The buttons of a keyboard as (label, action), row by row. *)
Definition entries (k : Keyboard) : list (Text * string) :=
  (fun b => (label b, callback_data b)) <$> concat k.

Definition localized (lang : string) (menu : list (string * string)) : list (Text * string) :=
  (fun e => (Tr lang e.1 [], e.2)) <$> menu.

(** ** Invariants of handlers *)

(** [keeps Inv R h]: from a world in [Inv], the handler [h] ends in [Inv],
    whether it returns or raises, and a returned value satisfies [R]. *)
Definition keeps {A} (Inv : World -> Prop) (R : A -> Prop) (h : H A) : Prop :=
  forall w, Inv w ->
    match h w with
    | (Ok a, w') => Inv w' /\ R a
    | (Raise _, w') => Inv w'
    end.

(** A world invariant made of an invariant [I] of the committed store and a
    property [G] of every pending referrer. *)
Definition world_inv (I : Store -> Prop) (G : Z -> Prop) (w : World) : Prop :=
  I (db w) /\ forall k r, user_data w !! k = Some r -> G r.

Definition any {A} : A -> Prop := fun _ => True.

(** The statements a handler may execute under [G]: an inserted user
    carries a referrer that satisfies [G], if any. *)
Definition stmt_ok (G : Z -> Prop) (q : stmt) : Prop :=
  match q with
  | INSERT_OR_IGNORE_users _ _ _ _ (Some r) _ => G r
  | _ => True
  end.

(** ** Trial flag along a run *)

Definition trial_used (uid : Z) (w : World) : bool :=
  match users (db w) !! uid with
  | Some u => truthy (is_trial_used u)
  | None => false
  end.

(** Number of steps of a trace at which the flag of [uid] goes from false
    to true. *)
Fixpoint flips (uid : Z) (ws : list World) : nat :=
  match ws with
  | w1 :: ws' =>
      match ws' with
      | w2 :: _ =>
          ((if negb (trial_used uid w1) && trial_used uid w2 then 1 else 0)
           + flips uid ws')%nat
      | [] => O
      end
  | [] => O
  end.

(** The screen shown to a user whose trial was already used. *)
Definition already_granted_screen (lang : string) : Effect :=
  edit_message_text (Tr lang "trial_used" [])
    [[InlineKeyboardButton (Tr lang "btn_buy" []) "plans"];
     [InlineKeyboardButton (Tr lang "btn_back" []) "back_main"]].

(** The screen shown when the trial is granted. *)
Definition trial_granted_screen (lang : string) (uid days expires_at : Z) : Effect :=
  edit_message_text
    (Tr lang "trial_activated"
        [("days", Num days);
         ("expires", Date "%Y-%m-%d %H:%M" expires_at);
         ("config", Lit ("vless://trial-" +:+ str uid +:+ "@demo.server:443"))])
    [[InlineKeyboardButton (Tr lang "btn_buy" []) "plans"];
     [InlineKeyboardButton (Tr lang "btn_back" []) "back_main"]].

(** No user row holds the referrer 0, and no pending referrer is 0. *)
Definition referrers_nonzero (s : Store) : Prop :=
  forall k u, users s !! k = Some u -> referrer_id u <> Some 0.

(** ** Purchases *)



(** ** Gateway payments *)

(** The store [s'] holds exactly one more subscription and one more payment
    than [s], the payment completed under the gateway's reference. *)
Definition both_persisted (update : PaymentUpdate) (s s' : Store) : Prop :=
  exists r p,
    subscriptions s' = subscriptions s ++ [r] /\
    payments s' = payments s ++ [p] /\
    p_status p = "completed" /\
    p_payment_id p = telegram_payment_charge_id update /\
    p_user_id p = s_user_id r /\
    p_amount p = s_price r.

(** ** Configurations *)

(** Two configurations that agree on everything but the two trial
    durations. *)
Definition same_except_trial_days (c1 c2 : Config) : Prop :=
  bot_token c1 = bot_token c2 /\
  admin_ids c1 = admin_ids c2 /\
  support_username c1 = support_username c2 /\
  payment_provider_token c1 = payment_provider_token c2 /\
  webhook_url c1 = webhook_url c2.

(** ** Action tokens *)

(** What a [plan_], [dur_] or [pay_] token selects. *)
Inductive Selection : Type :=
| sel_plan (plan_index : Z)
| sel_duration (plan_index duration : Z)
| sel_payment (method : string) (plan_index duration : Z).



(** The selection the dispatcher decodes from a token, with the exception
    the decoding raises; [None] for a token of another kind. *)
Definition selection_of (data : string) : option (result Selection) :=
  if startswith data "plan_" then
    Some (rbind (rbind (py_index (split "_" data) 1) py_int)
                (fun i => Ok (sel_plan i)))
  else if startswith data "dur_" then
    Some (match split "_" data with
          | [_; plan_index; duration] =>
              rbind (py_int plan_index) (fun i =>
              rbind (py_int duration) (fun d => Ok (sel_duration i d)))
          | _ => Raise ValueError
          end)
  else if startswith data "pay_" then
    let parts := split "_" data in
    Some (rbind (py_index parts 1) (fun method =>
          rbind (rbind (py_index parts 2) py_int) (fun i =>
          rbind (rbind (py_index parts 3) py_int) (fun d =>
          Ok (sel_payment method i d)))))
  else None.

(** The screen or payment a selection leads to. *)
Definition perform (query : CallbackQuery) (s : Selection) : H unit :=
  match s with
  | sel_plan i => show_durations query i
  | sel_duration i d => show_payment_methods query i d
  | sel_payment method i d =>
      process_payment query (tg_id (from_user query)) method i d
  end.

(** The tokens some branch of the dispatcher takes. *)
Definition routed (data : string) : bool :=
  startswith data "lang_" || String.eqb data "change_lang" ||
  String.eqb data "trial" || String.eqb data "plans" ||
  startswith data "plan_" || startswith data "dur_" ||
  startswith data "pay_" || String.eqb data "back_main".


(** The world after the callback was answered and nothing else happened. *)
Definition answered (w : World) : World := set_out (out w ++ [answer None]) w.


(** ** A sample session *)

Definition sample_config : Config :=
  {| bot_token := "123:abc"; admin_ids := [7]; trial_days := 10;
     referred_trial_days := 20; support_username := "@Support";
     payment_provider_token := ""; webhook_url := "" |}.

Definition other_config : Config :=
  {| bot_token := "123:abc"; admin_ids := [7]; trial_days := 3;
     referred_trial_days := 7; support_username := "@Support";
     payment_provider_token := ""; webhook_url := "" |}.

Definition alice : TgUser :=
  {| tg_id := 42; tg_username := Some "alice"; tg_first_name := "Alice" |}.

Definition press (d : string) : CallbackQuery := {| data := d; from_user := alice |}.

(** A clock that stands still at 1000 microseconds. *)
Definition still_clock : nat -> Z := fun _ => 1000.

(** Alice has started the bot and picked English. *)
Definition registered : World :=
  run sample_config [ev_start {| effective_user := alice; args := [] |};
                     ev_button (press "lang_en")]
      (initial still_clock None).

(** ... and then bought 30 days of the Basic plan on the demo path. *)
Definition subscribed : World :=
  run sample_config [ev_button (press "pay_card_0_30")] registered.

(** ... and then took the trial. *)
Definition tried : World :=
  run sample_config [ev_button (press "trial")] subscribed.

(** A Stars payment of Alice for 60 days of the Standard plan. *)
Definition stars_payment : PaymentUpdate :=
  {| payer := alice; invoice_payload := "plan_1_dur_60"; currency := "XTR";
     telegram_payment_charge_id := "ch_1" |}.

(** Alice's row once registered, and once subscribed. *)
Definition alice_registered : User :=
  {| user_id := 42; username := Some "alice"; first_name := "Alice";
     language_code := "en"; created_at := 1000; referrer_id := None;
     subscription_end := None; is_trial_used := 0; is_blocked := 0;
     total_paid := 0 |}.

Definition alice_subscribed : User :=
  with_purchase (1000 + timedelta_days 30) 5 alice_registered.

Definition alice_tried : User :=
  with_trial (1000 + timedelta_days 3) alice_subscribed.

Definition basic_plan : Plan :=
  {| name := "Basic"; devices := 1; prices := mk_prices 5 9 25 45 |}.


(** ** Screens *)

(** The handler [h] succeeds from [w] and its only effect is to render one
    screen that offers the actions [opts]. *)
Definition renders (h : H unit) (w : World) (opts : list string) : Prop :=
  exists message keyboard,
    h w = (Ok tt, set_out (out w ++ [edit_message_text message keyboard]) w) /\
    options keyboard = opts.

(** The tokens the purchase screens put on their buttons. *)
Definition plan_token (i : Z) : string := "plan_" +:+ str i.
Definition dur_token (i d : Z) : string := "dur_" +:+ str i +:+ "_" +:+ str d.
Definition pay_token (method : string) (i d : Z) : string :=
  "pay_" +:+ method +:+ "_" +:+ str i +:+ "_" +:+ str d.


(** ** Registration *)


(** The referrer [start] remembers for an unknown identity: the integer
    after [ref] in the first argument, unless it is missing, unreadable or
    zero. *)
Definition start_referrer (args : list string) : option Z :=
  match args with
  | a0 :: _ =>
      if startswith a0 "ref" then
        match int_of_str (drop_str 3 a0) with
        | Some r => if truthy r then Some r else None
        | None => None
        end
      else None
  | [] => None
  end.

(** The deep-link argument that names the referrer [r]. *)
Definition ref_arg (r : Z) : string := "ref" +:+ str r.


(** The language screen [start] sends to an unknown identity. *)
Definition language_screen : Effect :=
  reply_text
    (Lit ("🌍 <b>Welcome! / Добро пожаловать! / स्वागत! / مرحباً!</b>\n\n"
          +:+ "Please select your language:\n"
          +:+ "Пожалуйста, выберите язык:\n"
          +:+ "कृपया अपनी भाषा चुनें:\n"
          +:+ "يرجى اختيار لغتك:"))
    get_language_keyboard.

(** ** What handlers write *)

(** The catalog lists this plan, with these devices, at this price for
    this duration. *)
Definition catalog_price (plan_name : string) (devs duration price : Z) : Prop :=
  exists plan, plan ∈ PLANS_plans /\ name plan = plan_name /\
               devices plan = devs /\ prices plan !! str duration = Some price.

(** The statements a turn of the identity [uid] may execute: they touch the
    row of [uid] only, charge a positive price, insert subscriptions the
    catalog lists, which end at least their duration after they start, and
    insert payments that are completed Stars payments. *)
Definition issued_by (uid : Z) (q : stmt) : Prop :=
  match q with
  | INSERT_OR_IGNORE_users u _ _ _ _ _ => u = uid
  | UPDATE_users_language _ u => u = uid
  | UPDATE_users_trial _ u => u = uid
  | UPDATE_users_purchase _ price u => u = uid /\ 0 < price
  | INSERT_subscriptions u plan_name devs duration price _ started expires _ =>
      u = uid /\ catalog_price plan_name devs duration price /\
      started + timedelta_days duration <= expires
  | INSERT_payments u amount _ method _ status _ =>
      u = uid /\ 0 < amount /\ method = "telegram_stars" /\ status = "completed"
  end.

(** The identity a turn acts for. *)
Definition actor (e : Event) : option Z :=
  match e with
  | ev_start update => Some (tg_id (effective_user update))
  | ev_button query => Some (tg_id (from_user query))
  | ev_payment update => Some (tg_id (payer update))
  | ev_pre_checkout | ev_store _ => None
  end.

(** A well-formed row of [users] under the key [k]. *)
Definition user_ok (k : Z) (u : User) : Prop :=
  user_id u = k /\ is_blocked u = 0 /\
  (is_trial_used u = 0 \/ is_trial_used u = 1) /\
  0 <= total_paid u /\
  (subscription_end u = None -> is_trial_used u = 0 /\ total_paid u = 0).

(** A well-formed row of [subscriptions]. *)
Definition subscription_ok (r : Subscription) : Prop :=
  catalog_price (s_plan_name r) (s_devices r) (s_duration_days r) (s_price r) /\
  s_duration_days r ∈ PLANS_durations /\
  0 < s_price r /\
  s_started_at r + timedelta_days (s_duration_days r) <= s_expires_at r /\
  s_currency r = "USD" /\ s_is_active r = 1.

(** A well-formed row of [payments]. *)
Definition payment_ok (p : Payment) : Prop :=
  p_status p = "completed" /\ p_payment_method p = "telegram_stars" /\
  0 < p_amount p.

(** The rows of one identity. *)
Definition subscriptions_of (k : Z) (s : Store) : list Subscription :=
  filter (fun r => s_user_id r = k) (subscriptions s).
Definition payments_of (k : Z) (s : Store) : list Payment :=
  filter (fun p => p_user_id p = k) (payments s).

(** The fields of a row that are written once, when it is created. *)
Definition same_identity (u u0 : User) : Prop :=
  user_id u = user_id u0 /\ username u = username u0 /\
  first_name u = first_name u0 /\ created_at u = created_at u0 /\
  referrer_id u = referrer_id u0 /\ is_blocked u = is_blocked u0.

(** ** Turns that can write *)

(** The turns that reach a write of the database: a language button, the
    trial button, a [pay_] button whose method is not [stars], and a
    payment completion. *)
Definition may_write (e : Event) : bool :=
  match e with
  | ev_button query =>
      startswith (data query) "lang_" || String.eqb (data query) "trial" ||
      (startswith (data query) "pay_" &&
       match py_index (split "_" (data query)) 1 with
       | Ok method => negb (String.eqb method "stars")
       | Raise _ => true
       end)
  | ev_payment _ => true
  | ev_start _ | ev_pre_checkout | ev_store _ => false
  end.

(** The actions of the main menu that the dispatcher takes. *)
Definition live_menu_actions : list string := ["trial"; "plans"; "change_lang"].

(** ** [load_config] *)

(** [s.isdigit()], on ASCII. *)
Definition is_digit (c : ascii) : bool :=
  match digit_value c with Some _ => true | None => false end.

Fixpoint all_digits (s : string) : bool :=
  match s with
  | EmptyString => true
  | String c s' => is_digit c && all_digits s'
  end.

Definition isdigit (s : string) : bool :=
  negb (String.eqb s "") && all_digits s.

(** [s.rstrip()] and [s.strip()] *)
Fixpoint rstrip (s : string) : string :=
  match s with
  | EmptyString => EmptyString
  | String c s' =>
      match rstrip s' with
      | EmptyString => if is_space c then EmptyString else String c EmptyString
      | r => String c r
      end
  end.

Definition strip (s : string) : string := lstrip (rstrip s).


(** [[int(x.strip()) for x in xs if x.strip().isdigit()]] *)
Fixpoint admin_ids_of (xs : list string) : result (list Z) :=
  match xs with
  | [] => Ok []
  | x :: rest =>
      if isdigit (strip x) then
        rbind (py_int (strip x)) (fun n =>
        rbind (admin_ids_of rest) (fun ids => Ok (n :: ids)))
      else admin_ids_of rest
  end.



(** The strings on which the model of [int] and [isdigit] is Python's. *)
Fixpoint ascii_only (s : string) : bool :=
  match s with
  | EmptyString => true
  | String c s' => (nat_of_ascii c <? 128)%nat && ascii_only s'
  end.

(** Bob, who is not registered. *)
Definition bob : TgUser :=
  {| tg_id := 7; tg_username := None; tg_first_name := "Bob" |}.

(** * Theorems *)

(** ** The string primitives on examples *)

Example split_dur : split "_" "dur_1_30" = ["dur"; "1"; "30"].
Proof. reflexivity. Qed.
Example split_empty_field : split "_" "plan_" = ["plan"; ""].
Proof. reflexivity. Qed.
Example int_neg : int_of_str " -12 " = Some (-12).
Proof. reflexivity. Qed.
Example int_underscore : int_of_str "1_000" = Some 1000.
Proof. reflexivity. Qed.
Example int_bad : int_of_str "1__0" = None /\ int_of_str "" = None /\ int_of_str "9x" = None.
Proof. repeat split; reflexivity. Qed.
Example str_neg : str (-5) = "-5" /\ str 365 = "365".
Proof. split; reflexivity. Qed.

(** ** Reasoning about handlers *)

Lemma bind_eq {A B} (m : H A) (k : A -> H B) w :
  (m ≫= k) w = match m w with (Ok a, w') => k a w' | (Raise e, w') => (Raise e, w') end.
Proof. reflexivity. Qed.

Lemma bind_ok {A B} (m : H A) (k : A -> H B) w a w' :
  m w = (Ok a, w') -> (m ≫= k) w = k a w'.
Proof. intros E. rewrite bind_eq, E. reflexivity. Qed.

Lemma bind_raise {A B} (m : H A) (k : A -> H B) w e w' :
  m w = (Raise e, w') -> (m ≫= k) w = (Raise e, w').
Proof. intros E. rewrite bind_eq, E. reflexivity. Qed.

Lemma db_call_ok w : fault w = None -> db_call w = (Ok tt, w).
Proof. unfold db_call. intros ->. reflexivity. Qed.

Lemma get_user_ok uid w :
  fault w = None -> get_user uid w = (Ok (users (db w) !! uid), w).
Proof.
  intros F. unfold get_user, sqlite3_connect, fetchone.
  rewrite !bind_eq, (db_call_ok w F). reflexivity.
Qed.

Lemma t_ok uid key kwargs w :
  fault w = None -> t uid key kwargs w = (Ok (Tr (lang_of (db w) uid) key kwargs), w).
Proof.
  intros F. unfold t, get_language.
  rewrite !bind_eq, (get_user_ok _ _ F). reflexivity.
Qed.

Lemma t_button_ok uid key cb w :
  fault w = None ->
  t_button uid key cb w = (Ok (InlineKeyboardButton (Tr (lang_of (db w) uid) key []) cb), w).
Proof.
  intros F. unfold t_button. rewrite bind_eq, (t_ok _ _ _ _ F). reflexivity.
Qed.

Lemma ret_eq {A} (a : A) (w : World) : (mret a : H A) w = (Ok a, w).
Proof. reflexivity. Qed.

Ltac hread F :=
  repeat first
    [ rewrite bind_eq
    | rewrite ret_eq
    | rewrite (get_user_ok _ _ F)
    | rewrite (t_button_ok _ _ _ _ F)
    | rewrite (t_ok _ _ _ _ F)
    | progress cbv beta iota ].

Lemma get_main_menu_ok config uid w :
  fault w = None ->
  exists kb, get_main_menu config uid w = (Ok kb, w) /\
    entries kb =
      localized (lang_of (db w) uid)
        ((match users (db w) !! uid with
          | None => pre_trial_menu
          | Some u => if is_trial_used u =? 0 then pre_trial_menu else post_trial_menu
          end) ++ (if bool_decide (uid ∈ admin_ids config) then admin_entry else [])).
Proof.
  intros F. unfold get_main_menu, ADMIN_IDS.
  destruct (users (db w) !! uid) as [u|] eqn:U;
    [destruct (is_trial_used u =? 0) eqn:T|];
    destruct (bool_decide (uid ∈ admin_ids config)) eqn:A;
    hread F; rewrite ?U, ?T; hread F; rewrite ?A; hread F;
    eexists; (split; [reflexivity|]); reflexivity.
Qed.

(** ** Main menu *)

(** C8. The main menu offers exactly Trial, Buy, About, Support, Language
    while the trial-used flag is 0 or the user has no row, and exactly Buy,
    Account, Referral, Promo, Help, Support, Language otherwise; for an
    identity in the admin set an Admin entry is appended in both cases. *)
Theorem main_menu_variants config uid w :
  fault w = None ->
  exists kb, get_main_menu config uid w = (Ok kb, w) /\
    let trial_used :=
      match users (db w) !! uid with
      | Some u => negb (is_trial_used u =? 0)
      | None => false
      end in
    entries kb =
      localized (lang_of (db w) uid)
        ((if trial_used then post_trial_menu else pre_trial_menu) ++
         (if bool_decide (uid ∈ ADMIN_IDS config) then admin_entry else [])).
Proof.
  intros F. destruct (get_main_menu_ok config uid w F) as (kb & E & K).
  exists kb. split; [exact E|]. cbv zeta. rewrite K. unfold ADMIN_IDS.
  destruct (users (db w) !! uid) as [u|]; [|reflexivity].
  destruct (is_trial_used u =? 0); reflexivity.
Qed.

(** ** Status *)

(** What [get_subscription_status] computes from the stored expiry and the
    two readings of the clock it takes. *)
Lemma get_subscription_status_ok uid w :
  fault w = None ->
  let expiry := users (db w) !! uid ≫= subscription_end in
  let lang := lang_of (db w) uid in
  get_subscription_status uid w =
    match expiry with
    | None => (Ok (Tr lang "status_no_sub" []), w)
    | Some e =>
        if e <? time w (ticks w)
        then (Ok (Tr lang "status_expired" []), set_ticks (S (ticks w)) w)
        else (Ok (Tr lang "status_active"
                     [("days", Num (td_days (e - time w (S (ticks w)))))]),
              set_ticks (S (S (ticks w))) w)
    end.
Proof.
  intros F. cbv zeta. unfold get_subscription_status, datetime_now.
  hread F.
  destruct (users (db w) !! uid ≫= subscription_end) as [e|]; hread F; [|reflexivity].
  destruct (e <? time w (ticks w)).
  - rewrite t_ok by exact F. reflexivity.
  - hread F. rewrite t_ok by exact F. reflexivity.
Qed.



(** The handler reads the clock twice: when the expiry falls between the
    two readings the status is active with -1 days left. *)
Remark status_between_readings :
  let w := {| db := {| users := {[ 1 := {| user_id := 1; username := None;
                first_name := "A"; language_code := "en"; created_at := 0;
                referrer_id := None; subscription_end := Some 10;
                is_trial_used := 0; is_blocked := 0; total_paid := 0 |} ]};
                subscriptions := []; payments := [] |};
              user_data := ∅; out := []; time := fun n => 10 + Z.of_nat n;
              ticks := 0; fault := None |} in
  fst (get_subscription_status 1 w) = Ok (status_text "en" (Active (-1))).
Proof. vm_compute. reflexivity. Qed.

(** ** Invariants: a small program logic *)

Section Keeps.
Context {A B : Type}.
Variable Inv : World -> Prop.

Lemma keeps_ret (R : A -> Prop) (a : A) : R a -> keeps Inv R (mret a).
Proof. intros Ra w Iw. rewrite ret_eq. auto. Qed.

Lemma keeps_bind (R : A -> Prop) (S : B -> Prop) (m : H A) (k : A -> H B) :
  keeps Inv R m -> (forall a, R a -> keeps Inv S (k a)) -> keeps Inv S (m ≫= k).
Proof.
  intros Hm Hk w Iw. rewrite bind_eq. specialize (Hm w Iw).
  destruct (m w) as [[a|e] w']; [|exact Hm].
  destruct Hm as [Iw' Ra]. exact (Hk a Ra w' Iw').
Qed.

Lemma keeps_weaken (R R' : A -> Prop) (m : H A) :
  keeps Inv R m -> (forall a, R a -> R' a) -> keeps Inv R' m.
Proof.
  intros Hm W w Iw. specialize (Hm w Iw).
  destruct (m w) as [[a|e] w']; [|exact Hm]. destruct Hm; auto.
Qed.

Lemma keeps_raise (R : A -> Prop) e : keeps Inv R (raise e).
Proof. intros w Iw. exact Iw. Qed.

Lemma keeps_lift (R : A -> Prop) (r : result A) :
  (forall a, r = Ok a -> R a) -> keeps Inv R (lift r).
Proof. intros Hr w Iw. unfold lift. destruct r; auto. Qed.
End Keeps.

Section WorldInv.
Variable I : Store -> Prop.
Variable G : Z -> Prop.
#[local] Abbreviation Inv := (world_inv I G).

Lemma keeps_emit e : keeps Inv any (emit e).
Proof. intros w Iw. split; [exact Iw | exact Logic.I]. Qed.

Lemma keeps_now : keeps Inv any datetime_now.
Proof. intros w Iw. split; [exact Iw | exact Logic.I]. Qed.

Lemma keeps_db_call : keeps Inv any db_call.
Proof.
  intros w Iw. unfold db_call. destruct (fault w) as [[|n]|]; try exact Iw;
    (split; [exact Iw | exact Logic.I]).
Qed.

Lemma keeps_connect : keeps Inv I sqlite3_connect.
Proof. intros w Iw. split; [exact Iw | exact (proj1 Iw)]. Qed.

Lemma keeps_execute conn q :
  I conn -> I (run_stmt q conn) -> keeps Inv I (execute conn q).
Proof.
  intros Ic Iq. unfold execute.
  eapply keeps_bind; [apply keeps_db_call | intros _ _; apply keeps_ret; exact Iq].
Qed.

Lemma keeps_fetchone {A} conn (sel : Store -> A) : keeps Inv any (fetchone conn sel).
Proof.
  unfold fetchone.
  eapply keeps_bind; [apply keeps_db_call | intros _ _; apply keeps_ret; exact Logic.I].
Qed.

Lemma keeps_commit conn : I conn -> keeps Inv any (commit conn).
Proof.
  intros Ic. unfold commit.
  eapply keeps_bind; [apply keeps_db_call | intros _ _].
  intros w Iw. split; [|exact Logic.I]. split; [exact Ic | exact (proj2 Iw)].
Qed.

Lemma keeps_pending uid :
  keeps Inv (fun o => forall z, o = Some z -> G z) (pending_referrer uid).
Proof. intros w Iw. split; [exact Iw|]. intros z E. exact (proj2 Iw _ _ E). Qed.

Lemma keeps_remember uid r : G r -> keeps Inv any (remember_referrer uid r).
Proof.
  intros Gr w Iw. split; [|exact Logic.I]. split; [exact (proj1 Iw)|].
  intros k z. cbn. rewrite lookup_insert. case_decide.
  - intros [= <-]. exact Gr.
  - apply (proj2 Iw).
Qed.

Lemma keeps_get_user uid : keeps Inv any (get_user uid).
Proof.
  unfold get_user.
  eapply keeps_bind; [apply keeps_connect | intros conn _; apply keeps_fetchone].
Qed.

End WorldInv.

Ltac kbase :=
  first [ apply keeps_emit | apply keeps_now | apply keeps_db_call
        | apply keeps_get_user | apply keeps_fetchone | apply keeps_raise
        | apply keeps_lift; intros; exact Logic.I
        | apply keeps_ret; exact Logic.I ].

Ltac kauto_with base :=
  lazymatch goal with
  | |- keeps _ _ (mbind _ _) =>
      eapply (keeps_bind _ any); [ kauto_with base | intros ? _; kauto_with base ]
  | |- keeps _ _ (if ?b then _ else _) => destruct b; kauto_with base
  | |- keeps _ _ (match ?x with _ => _ end) => destruct x; kauto_with base
  | |- _ => first [ base | kbase | idtac ]
  end.

Section Handlers.
Variable I : Store -> Prop.
Variable G : Z -> Prop.
#[local] Abbreviation Inv := (world_inv I G).

Lemma keeps_t uid key kwargs : keeps Inv any (t uid key kwargs).
Proof. unfold t, get_language. kauto_with fail. Qed.

Lemma keeps_t_button uid key cb : keeps Inv any (t_button uid key cb).
Proof. unfold t_button. kauto_with ltac:(apply keeps_t). Qed.

Ltac kread := kauto_with ltac:(first [apply keeps_t | apply keeps_t_button]).

Lemma keeps_get_main_menu config uid : keeps Inv any (get_main_menu config uid).
Proof. unfold get_main_menu. kread. Qed.

Lemma keeps_get_subscription_status uid :
  keeps Inv any (get_subscription_status uid).
Proof. unfold get_subscription_status. kread. Qed.

Lemma keeps_show_plans_loop uid plans : forall i message keyboard,
  keeps Inv any (show_plans_loop uid i plans message keyboard).
Proof. induction plans as [|p plans IH]; intros; cbn [show_plans_loop]; kread. apply IH. Qed.

Lemma keeps_show_durations_loop uid plan_index plan durations :
  forall message keyboard,
  keeps Inv any (show_durations_loop uid plan_index plan durations message keyboard).
Proof.
  induction durations as [|d ds IH]; intros; cbn [show_durations_loop]; kread.
  apply IH.
Qed.

Ltac kread' :=
  kauto_with ltac:(first [ apply keeps_t | apply keeps_t_button
                         | apply keeps_get_main_menu
                         | apply keeps_get_subscription_status
                         | apply keeps_show_plans_loop
                         | apply keeps_show_durations_loop ]).

Lemma keeps_show_plans query : keeps Inv any (show_plans query).
Proof. unfold show_plans. kread'. Qed.

Lemma keeps_show_durations query i : keeps Inv any (show_durations query i).
Proof. unfold show_durations. kread'. Qed.

Lemma keeps_show_payment_methods query i d :
  keeps Inv any (show_payment_methods query i d).
Proof. unfold show_payment_methods. kread'. Qed.

Lemma keeps_back_to_main config query : keeps Inv any (back_to_main config query).
Proof. unfold back_to_main. kread'. Qed.

Hypothesis I_stmt : forall q s, stmt_ok G q -> I s -> I (run_stmt q s).
Hypothesis G_truthy : forall r, truthy r = true -> G r.

Ltac kstmt :=
  apply keeps_execute; [assumption | apply I_stmt; [try exact Logic.I | assumption]].

Ltac kwrite base :=
  lazymatch goal with
  | |- keeps _ _ (mbind _ sqlite3_connect) =>
      eapply (keeps_bind _ I); [apply keeps_connect | intros ? ?; kwrite base]
  | |- keeps _ _ (mbind _ (execute _ _)) =>
      eapply (keeps_bind _ I); [kstmt | intros ? ?; kwrite base]
  | |- keeps _ _ (mbind _ (commit _)) =>
      eapply (keeps_bind _ any);
        [apply keeps_commit; assumption | intros ? _; kwrite base]
  | |- keeps _ _ (commit _) => apply keeps_commit; assumption
  | |- keeps _ _ (mbind _ (pending_referrer _)) =>
      eapply (keeps_bind _ _); [apply keeps_pending | intros ? ?; kwrite base]
  | |- keeps _ _ (mbind _ _) =>
      eapply (keeps_bind _ any); [ kwrite base | intros ? _; kwrite base ]
  | |- keeps _ _ (if truthy ?r then _ else _) =>
      destruct (truthy r) eqn:?; kwrite base
  | |- keeps _ _ (remember_referrer _ _) =>
      apply keeps_remember; apply G_truthy; assumption
  | |- keeps _ _ (if ?b then _ else _) => destruct b; kwrite base
  | |- keeps _ _ (match ?x with _ => _ end) => destruct x; kwrite base
  | |- _ => first [ base | kbase | idtac ]
  end.

Ltac khandlers :=
  first [ apply keeps_t | apply keeps_t_button
        | apply keeps_get_main_menu
        | apply keeps_get_subscription_status
        | apply keeps_show_plans | apply keeps_show_durations
        | apply keeps_show_payment_methods | apply keeps_back_to_main ].

Lemma keeps_create_user uid uname fname language referrer :
  (forall z, referrer = Some z -> G z) ->
  keeps Inv any (create_user uid uname fname language referrer).
Proof.
  intros Gr. unfold create_user. kwrite khandlers.
  destruct referrer; cbn; auto.
Qed.

Lemma keeps_set_language uid language : keeps Inv any (set_language uid language).
Proof. unfold set_language. kwrite khandlers. Qed.

Lemma keeps_handle_trial query : keeps Inv any (handle_trial query).
Proof. unfold handle_trial. kwrite khandlers. Qed.

Lemma keeps_process_payment query uid method plan_index duration :
  keeps Inv any (process_payment query uid method plan_index duration).
Proof. unfold process_payment. kwrite khandlers. Qed.

Lemma keeps_successful_payment_callback update :
  keeps Inv any (successful_payment_callback update).
Proof. unfold successful_payment_callback. kwrite khandlers. Qed.

Lemma keeps_precheckout_callback : keeps Inv any precheckout_callback.
Proof. apply keeps_emit. Qed.

Lemma keeps_start config update : keeps Inv any (start config update).
Proof. unfold start. kwrite khandlers. Qed.

Ltac khandlers' :=
  first [ khandlers | apply keeps_set_language | apply keeps_handle_trial
        | apply keeps_process_payment
        | apply keeps_create_user; assumption ].

Lemma keeps_button_handler config query : keeps Inv any (button_handler config query).
Proof. unfold button_handler. kwrite khandlers'. Qed.

(** Every turn keeps the invariant. *)
Lemma turn_keeps config e w : Inv w -> Inv (turn config e w).
Proof.
  intros Iw. destruct e as [u|q| |u|f]; cbn [turn].
  - pose proof (keeps_start config u w Iw) as K.
    destruct (start config u w) as [[a|x] w']; [apply K | exact K].
  - pose proof (keeps_button_handler config q w Iw) as K.
    destruct (button_handler config q w) as [[a|x] w']; [apply K | exact K].
  - pose proof (keeps_precheckout_callback w Iw) as K.
    destruct (precheckout_callback w) as [[a|x] w']; [apply K | exact K].
  - pose proof (keeps_successful_payment_callback u w Iw) as K.
    destruct (successful_payment_callback u w) as [[a|x] w']; [apply K | exact K].
  - exact Iw.
Qed.

Lemma run_keeps config evs : forall w, Inv w -> Inv (run config evs w).
Proof.
  induction evs as [|e evs IH]; intros w Iw; [exact Iw|].
  apply IH, turn_keeps, Iw.
Qed.
End Handlers.

Ltac kreads := kauto_with ltac:(first [apply keeps_t | apply keeps_t_button]).

(** ** Running a handler when the store is available *)

Lemma execute_ok conn q w :
  fault w = None -> execute conn q w = (Ok (run_stmt q conn), w).
Proof. intros F. unfold execute. rewrite bind_eq, (db_call_ok w F). reflexivity. Qed.

Lemma fetchone_ok {A} conn (sel : Store -> A) w :
  fault w = None -> fetchone conn sel w = (Ok (sel conn), w).
Proof. intros F. unfold fetchone. rewrite bind_eq, (db_call_ok w F). reflexivity. Qed.

Lemma commit_ok conn w :
  fault w = None -> commit conn w = (Ok tt, set_db conn w).
Proof. intros F. unfold commit. rewrite bind_eq, (db_call_ok w F). reflexivity. Qed.

Lemma now_eq w : datetime_now w = (Ok (time w (ticks w)), set_ticks (S (ticks w)) w).
Proof. reflexivity. Qed.

Lemma connect_eq w : sqlite3_connect w = (Ok (db w), w).
Proof. reflexivity. Qed.

Lemma emit_eq e w : emit e w = (Ok tt, set_out (out w ++ [e]) w).
Proof. reflexivity. Qed.

Lemma lift_eq {A} (r : result A) w : lift r w = (r, w).
Proof. reflexivity. Qed.

Lemma raise_eq {A} e w : raise (A := A) e w = (Raise e, w).
Proof. reflexivity. Qed.

Ltac hrun F :=
  repeat first
    [ rewrite bind_eq
    | rewrite ret_eq
    | rewrite now_eq
    | rewrite connect_eq
    | rewrite emit_eq
    | rewrite lift_eq
    | rewrite raise_eq
    | rewrite get_user_ok by exact F
    | rewrite t_button_ok by exact F
    | rewrite t_ok by exact F
    | rewrite execute_ok by exact F
    | rewrite fetchone_ok by exact F
    | rewrite commit_ok by exact F
    | progress cbv beta iota zeta ].

(** The language of a user is not touched by the entitlement updates. *)
Lemma lang_of_alter f uid k s :
  (forall u, language_code (f u) = language_code u) ->
  lang_of (set_users (alter f k) s) uid = lang_of s uid.
Proof.
  intros Lf. unfold lang_of, set_users. cbn [users].
  rewrite lookup_alter. case_decide as E; [|reflexivity].
  subst k. destruct (users s !! uid); cbn; [rewrite Lf|]; reflexivity.
Qed.

(** ** Trial *)

(** A rejected attempt: the screen says "already used" and nothing else
    changes. *)
Lemma handle_trial_rejected query w u :
  fault w = None ->
  users (db w) !! tg_id (from_user query) = Some u ->
  truthy (is_trial_used u) = true ->
  handle_trial query w =
    (Ok tt, set_out (out w ++
       [already_granted_screen (lang_of (db w) (tg_id (from_user query)))]) w).
Proof.
  intros F U T. unfold handle_trial. hrun F. rewrite U. hrun F. rewrite T.
  hrun F. reflexivity.
Qed.

(** A granted attempt. *)
Lemma handle_trial_granted query w u :
  fault w = None ->
  users (db w) !! tg_id (from_user query) = Some u ->
  truthy (is_trial_used u) = false ->
  let uid := tg_id (from_user query) in
  let days := if truthy_opt (referrer_id u) then 7 else 3 in
  let expires_at := time w (ticks w) + timedelta_days days in
  handle_trial query w =
    (Ok tt,
     set_out (out w ++ [trial_granted_screen (lang_of (db w) uid) uid days expires_at])
       (set_db (run_stmt (UPDATE_users_trial expires_at uid) (db w))
          (set_ticks (S (ticks w)) w))).
Proof.
  intros F U T. cbv zeta. unfold handle_trial. hrun F. rewrite U. hrun F. rewrite T.
  hrun F. cbn [db set_db set_ticks run_stmt].
  rewrite lang_of_alter by reflexivity. reflexivity.
Qed.

(** The flag of a user, once set, survives every statement. *)
Lemma flag_stmt uid q s :
  (exists u, users s !! uid = Some u /\ truthy (is_trial_used u) = true) ->
  exists u, users (run_stmt q s) !! uid = Some u /\ truthy (is_trial_used u) = true.
Proof.
  intros (u & U & T).
  destruct q; cbn [run_stmt set_users users]; eauto;
    try (rewrite lookup_alter; case_decide as E;
         [subst; rewrite U; cbn; eexists; split; [reflexivity|]; cbn; auto
         | eauto]).
  destruct (users s !! uid0) eqn:U0; [eauto|].
  cbn [set_users users]. rewrite lookup_insert. case_decide as E; [|eauto].
  subst. congruence.
Qed.

Lemma trial_used_spec uid w :
  trial_used uid w = true <->
  exists u, users (db w) !! uid = Some u /\ truthy (is_trial_used u) = true.
Proof.
  unfold trial_used. destruct (users (db w) !! uid) as [u|].
  - split; [eauto | intros (? & [= <-] & ?); assumption].
  - split; [discriminate | intros (? & ? & _); discriminate].
Qed.

(** Monotonicity: no turn clears the flag. *)
Lemma trial_used_turn config uid e w :
  trial_used uid w = true -> trial_used uid (turn config e w) = true.
Proof.
  intros T. apply trial_used_spec.
  refine (proj1 (turn_keeps
    (fun s => exists u, users s !! uid = Some u /\ truthy (is_trial_used u) = true)
    any _ _ config e w _)).
  - intros q s _. apply flag_stmt.
  - intros; exact Logic.I.
  - split; [apply trial_used_spec, T | intros; exact Logic.I].
Qed.

Lemma flips_set config uid evs : forall w,
  trial_used uid w = true -> flips uid (trace config evs w) = O.
Proof.
  induction evs as [|e evs IH]; intros w T; [reflexivity|].
  cbn [trace flips].
  pose proof (trial_used_turn config uid e w T) as T'.
  specialize (IH _ T').
  destruct (trace config evs (turn config e w)) as [|w2 ws] eqn:Tr; [reflexivity|].
  assert (w2 = turn config e w) as ->.
  { destruct evs; cbn in Tr; congruence. }
  rewrite T, IH. reflexivity.
Qed.

Lemma flips_at_most_once config uid evs : forall w,
  (flips uid (trace config evs w) <= 1)%nat.
Proof.
  induction evs as [|e evs IH]; intros w; [cbn; lia|].
  cbn [trace flips].
  destruct (trace config evs (turn config e w)) as [|w2 ws] eqn:Tr; [lia|].
  assert (w2 = turn config e w) as ->.
  { destruct evs; cbn in Tr; congruence. }
  destruct (trial_used uid (turn config e w)) eqn:T'.
  - pose proof (flips_set config uid evs _ T') as Z0. rewrite Tr in Z0.
    rewrite Z0. destruct (negb (trial_used uid w)); cbn; lia.
  - specialize (IH (turn config e w)). rewrite Tr in IH.
    rewrite andb_false_r. cbn. exact IH.
Qed.

(** A handler that keeps "the store is [s0]" does not write. *)
Lemma keeps_db {A} (h : H A) (s0 : Store) w :
  keeps (world_inv (fun s => s = s0) any) any h ->
  db w = s0 -> db (snd (h w)) = s0.
Proof.
  intros K D. specialize (K w (conj D (fun _ _ _ => Logic.I))).
  destruct (h w) as [[a|e] w']; cbn; [apply K | apply K].
Qed.

(** A rejected attempt writes nothing, whether or not the store answers. *)
Lemma handle_trial_rejected_no_write query w u :
  users (db w) !! tg_id (from_user query) = Some u ->
  truthy (is_trial_used u) = true ->
  db (snd (handle_trial query w)) = db w.
Proof.
  intros U T. apply keeps_db; [|reflexivity].
  unfold handle_trial. eapply (keeps_bind _ (fun o => o = Some u)).
  - unfold get_user. eapply (keeps_bind _ (fun s => s = db w)).
    + intros w0 Iw0. split; [exact Iw0 | exact (proj1 Iw0)].
    + intros conn ->. unfold fetchone. eapply (keeps_bind _ any); [kbase|].
      intros _ _. apply keeps_ret. exact U.
  - intros o ->. rewrite T. kreads.
Qed.

(** C2. Along any sequence of turns the trial-used flag of a user goes from
    false to true at most once; an attempt made while the flag is set shows
    the "already used" screen, and writes nothing to the database: the
    expiry and every other field of every user are as before. *)
Theorem trial_once config uid :
  (forall evs w, (flips uid (trace config evs w) <= 1)%nat) /\
  (forall query w u,
     tg_id (from_user query) = uid ->
     users (db w) !! uid = Some u ->
     truthy (is_trial_used u) = true ->
     db (snd (handle_trial query w)) = db w /\
     (fault w = None ->
      handle_trial query w =
        (Ok tt, set_out (out w ++ [already_granted_screen (lang_of (db w) uid)]) w))).
Proof.
  split.
  - intros evs w. apply flips_at_most_once.
  - intros query w u <- U T. split.
    + exact (handle_trial_rejected_no_write query w u U T).
    + intros F. exact (handle_trial_rejected query w u F U T).
Qed.

(** ** Referrers *)

Lemma referrers_stmt q s :
  stmt_ok (fun r => r <> 0) q -> referrers_nonzero s -> referrers_nonzero (run_stmt q s).
Proof.
  intros Q R k u.
  destruct q; cbn [run_stmt set_users users]; try apply R;
    try (rewrite lookup_alter; case_decide as E; [|apply R];
         subst; destruct (users s !! k) as [u0|] eqn:U0; cbn; [|discriminate];
         intros [= <-]; cbn; exact (R _ _ U0)).
  destruct (users s !! uid) eqn:U0; [apply R|].
  cbn [set_users users]. rewrite lookup_insert. case_decide as E; [|apply R].
  intros [= <-]. cbn. destruct referrer as [r|]; [|discriminate].
  cbn in Q. congruence.
Qed.

Lemma truthy_nonzero r : truthy r = true -> r <> 0.
Proof. unfold truthy. intros T ->. discriminate. Qed.

(** In every reachable world the stored referrers are absent or non-zero:
    [start] only remembers a referrer that is truthy. *)
Lemma reachable_referrers config w :
  reachable config w -> world_inv referrers_nonzero (fun r => r <> 0) w.
Proof.
  induction 1 as [clock f | w e _ IH].
  - split.
    + intros k u. cbn. rewrite lookup_empty. discriminate.
    + intros k r. cbn. rewrite lookup_empty. discriminate.
  - apply turn_keeps; [apply referrers_stmt | apply truthy_nonzero | exact IH].
Qed.

Lemma users_after_trial expires_at uid s u :
  users s !! uid = Some u ->
  users (run_stmt (UPDATE_users_trial expires_at uid) s) !! uid
    = Some (with_trial expires_at u).
Proof.
  intros U. cbn [run_stmt set_users users].
  rewrite lookup_alter. case_decide; [|congruence]. rewrite U. reflexivity.
Qed.

(** C4. When the trial is granted to a user of a reachable world, its
    duration is 7 days if the user's referrer is set and 3 days otherwise;
    the grant stores the expiry now + days and sets the trial-used flag. *)
Theorem referral_bonus config query w u :
  reachable config w ->
  fault w = None ->
  users (db w) !! tg_id (from_user query) = Some u ->
  is_trial_used u = 0 ->
  let uid := tg_id (from_user query) in
  let days := match referrer_id u with Some _ => 7 | None => 3 end in
  let expires_at := time w (ticks w) + timedelta_days days in
  exists w' u',
    handle_trial query w = (Ok tt, w') /\
    users (db w') !! uid = Some u' /\
    u' = with_trial expires_at u /\
    subscription_end u' = Some expires_at /\
    is_trial_used u' = 1 /\
    out w' = out w ++ [trial_granted_screen (lang_of (db w) uid) uid days expires_at].
Proof.
  intros R F U T uid days expires_at.
  assert (T' : truthy (is_trial_used u) = false) by (unfold truthy; rewrite T; reflexivity).
  pose proof (handle_trial_granted query w u F U T') as E. cbv zeta in E.
  assert (D : (if truthy_opt (referrer_id u) then 7 else 3) = days).
  { subst days. destruct (referrer_id u) as [r|] eqn:Ru; [|reflexivity].
    cbn. unfold truthy. destruct (Z.eqb_spec r 0) as [->|]; [|reflexivity].
    exfalso. exact (proj1 (reachable_referrers config w R) _ _ U Ru). }
  rewrite D in E. fold expires_at uid in E.
  eexists _, (with_trial expires_at u). split; [exact E|].
  cbn [db set_out set_db].
  split; [apply users_after_trial, U|].
  repeat split.
Qed.

(** C9. The grant overwrites the stored expiry: a user who has not used the
    trial and whose entitlement ends later than now + days is left, after
    the trial is activated, with the earlier expiry now + days. *)
Theorem trial_shortens_entitlement query w u E :
  fault w = None ->
  users (db w) !! tg_id (from_user query) = Some u ->
  is_trial_used u = 0 ->
  subscription_end u = Some E ->
  let uid := tg_id (from_user query) in
  let days := if truthy_opt (referrer_id u) then 7 else 3 in
  let expires_at := time w (ticks w) + timedelta_days days in
  expires_at < E ->
  exists w' u',
    handle_trial query w = (Ok tt, w') /\
    users (db w') !! uid = Some u' /\
    subscription_end u' = Some expires_at /\
    expires_at < E /\
    subscription_end u' <> Some E /\
    subscription_end u' <> Some (E + timedelta_days days).
Proof.
  intros F U T S uid days expires_at L.
  assert (T' : truthy (is_trial_used u) = false) by (unfold truthy; rewrite T; reflexivity).
  pose proof (handle_trial_granted query w u F U T') as Eq. cbv zeta in Eq.
  fold uid days expires_at in Eq.
  eexists _, (with_trial expires_at u). split; [exact Eq|].
  cbn [db set_out set_db].
  split; [apply users_after_trial, U|].
  cbn [subscription_end with_trial].
  assert (0 < timedelta_days days).
  { unfold timedelta_days, days. destruct (truthy_opt (referrer_id u)); lia. }
  repeat split; try assumption; intros [= Hx]; lia.
Qed.

(** ** Purchases *)







(** ** Atomicity of the gateway path *)

Section ValueTracking.
Variable I : Store -> Prop.
Variable G : Z -> Prop.
#[local] Abbreviation Inv := (world_inv I G).

Lemma keeps_execute_val conn q :
  keeps Inv (fun c => c = run_stmt q conn) (execute conn q).
Proof.
  unfold execute.
  eapply keeps_bind; [apply keeps_db_call | intros _ _; apply keeps_ret; reflexivity].
Qed.

Lemma keeps_then {A B} (R : A -> Prop) (m : H A) (k : A -> H B)
  (Q : result B * World -> Prop) :
  keeps Inv R m ->
  (forall e w, Inv w -> Q (Raise e, w)) ->
  (forall a w, R a -> Inv w -> Q (k a w)) ->
  forall w, Inv w -> Q ((m ≫= k) w).
Proof.
  intros Km Qi Qk w Iw. rewrite bind_eq. specialize (Km w Iw).
  destruct (m w) as [[a|e] w']; [|exact (Qi _ _ Km)].
  destruct Km as [Iw' Ra]. exact (Qk a w' Ra Iw').
Qed.
End ValueTracking.

Lemma commit_then {B} (conn s0 : Store) (k : unit -> H B)
  (Q : result B * World -> Prop) :
  (forall e w, db w = s0 -> Q (Raise e, w)) ->
  (forall r w, db w = conn -> Q (r, w)) ->
  keeps (world_inv (fun s => s = conn) any) any (k tt) ->
  forall w, db w = s0 -> Q ((commit conn ≫= k) w).
Proof.
  intros Q0 Q1 Kk w D. rewrite bind_eq. unfold commit. rewrite bind_eq.
  unfold db_call.
  assert (T : forall w1, db w1 = conn -> Q (k tt w1)).
  { intros w1 D1. pose proof (keeps_db (k tt) conn w1 Kk D1) as D2.
    destruct (k tt w1) as [r w2]. apply Q1. exact D2. }
  destruct (fault w) as [[|n]|]; cbv beta iota.
  - apply Q0, D.
  - apply T. reflexivity.
  - apply T. reflexivity.
Qed.

(** The five database calls of the gateway path up to the commit: if one of
    them fails, the database is as before. *)
Lemma gateway_fault_unchanged update w n :
  fault w = Some n -> (n < 5)%nat ->
  db (snd (successful_payment_callback update w)) = db w.
Proof.
  intros F L. unfold successful_payment_callback.
  rewrite !bind_eq, !lift_eq.
  destruct (rbind (py_index _ 1) py_int) as [plan_index|]; [|reflexivity].
  cbv beta iota. rewrite !bind_eq, !lift_eq.
  destruct (rbind (py_index _ 3) py_int) as [duration|]; [|reflexivity].
  cbv beta iota. rewrite !bind_eq, !lift_eq.
  destruct (py_index PLANS_plans plan_index) as [plan|]; [|reflexivity].
  cbv beta iota. rewrite !bind_eq, !lift_eq.
  destruct (py_getitem _ _) as [price|]; [|reflexivity].
  cbv beta iota.
  unfold execute, fetchone, commit, datetime_now, sqlite3_connect, db_call, publish.
  destruct n as [|[|[|[|[|n]]]]]; [| | | | |lia];
    repeat (rewrite ?bind_eq, ?ret_eq; cbn [fault set_fault set_ticks set_db];
            rewrite ?F; cbv beta iota zeta); reflexivity.
Qed.

Lemma both_after_transaction update s new_end price plan_name devs duration
    current_time config_url created :
  let uid := tg_id (payer update) in
  both_persisted update s
    (run_stmt (INSERT_payments uid price (currency update) "telegram_stars"
                               (telegram_payment_charge_id update) "completed" created)
       (run_stmt (INSERT_subscriptions uid plan_name devs duration price
                                       "telegram_stars" current_time new_end config_url)
          (run_stmt (UPDATE_users_purchase new_end price uid) s))).
Proof. cbv zeta. eexists _, _. cbn. repeat split. Qed.

(** The outcome of a gateway completion, whatever fails. *)
Lemma gateway_outcome update w :
  let o := successful_payment_callback update w in
  (db (snd o) = db w \/ both_persisted update (db w) (db (snd o))) /\
  (fst o = Ok tt -> both_persisted update (db w) (db (snd o))).
Proof.
  cbv zeta.
  set (Q := fun o : result unit * World =>
    (db (snd o) = db w \/ both_persisted update (db w) (db (snd o))) /\
    (fst o = Ok tt -> both_persisted update (db w) (db (snd o)))).
  change (Q (successful_payment_callback update w)).
  assert (Q0 : forall e w0, world_inv (fun s => s = db w) any w0 -> Q (Raise e, w0)).
  { intros e w0 [D _]. unfold Q. cbn [fst snd].
    split; [left; exact D | discriminate]. }
  assert (I0 : world_inv (fun s => s = db w) any w).
  { split; [reflexivity | intros; exact Logic.I]. }
  revert I0. generalize w at 2 3. unfold successful_payment_callback.
  apply (keeps_then _ _ any); [kbase | exact Q0 | intros plan_index w1 _].
  apply (keeps_then _ _ any); [kbase | exact Q0 | intros duration w2 _].
  apply (keeps_then _ _ any); [kbase | exact Q0 | intros plan w3 _].
  apply (keeps_then _ _ any); [kbase | exact Q0 | intros price w4 _].
  apply (keeps_then _ _ (fun c => c = db w));
    [apply keeps_connect | exact Q0 | intros conn w5 ->].
  apply (keeps_then _ _ any); [kbase | exact Q0 | intros current_time w6 _].
  apply (keeps_then _ _ any); [kbase | exact Q0 | intros result w7 _].
  cbv zeta.
  eapply keeps_then; [apply keeps_execute_val | exact Q0 | intros conn1 w8 ->].
  eapply keeps_then; [apply keeps_execute_val | exact Q0 | intros conn2 w9 ->].
  apply (keeps_then _ _ any); [kbase | exact Q0 | intros created w10 _].
  eapply keeps_then; [apply keeps_execute_val | exact Q0 | intros conn3 w11 ->].
  intros I11. apply commit_then with (s0 := db w).
  - intros e w0 D. apply Q0. split; [exact D | intros; exact Logic.I].
  - intros r w0 D. unfold Q. cbn [fst snd]. rewrite D.
    split; [right|intros _]; apply both_after_transaction.
  - kreads.
  - exact (proj1 I11).
Qed.

(** C3. However the store fails during a gateway payment completion, the
    database afterwards either is exactly as before (no subscription, no
    payment, no change of the user) or holds both the new subscription and
    its payment, completed and carrying the gateway's charge reference: the
    two inserts travel in one transaction with a single commit. A failure
    of any of the five database calls up to the commit leaves the database
    as before, and a completion that returns has persisted both rows. *)
Theorem gateway_atomicity update w :
  let r := fst (successful_payment_callback update w) in
  let w' := snd (successful_payment_callback update w) in
  (db w' = db w \/ both_persisted update (db w) (db w')) /\
  (length (subscriptions (db w')) = S (length (subscriptions (db w))) <->
   length (payments (db w')) = S (length (payments (db w)))) /\
  (r = Ok tt -> both_persisted update (db w) (db w')) /\
  (forall n, fault w = Some n -> (n < 5)%nat -> db w' = db w).
Proof.
  cbv zeta. destruct (gateway_outcome update w) as [O S].
  split; [exact O|]. split; [|split; [exact S|]].
  - destruct O as [-> | (r & p & -> & -> & _)].
    + split; intros L; exfalso; lia.
    + rewrite !length_app. cbn [length]. split; intros _; lia.
  - intros n F L. exact (gateway_fault_unchanged update w n F L).
Qed.

(** ** Configuration *)

Lemma get_main_menu_config c1 c2 uid :
  admin_ids c1 = admin_ids c2 -> get_main_menu c1 uid = get_main_menu c2 uid.
Proof. intros A. unfold get_main_menu, ADMIN_IDS. rewrite A. reflexivity. Qed.

Lemma turn_config c1 c2 e w :
  admin_ids c1 = admin_ids c2 -> turn c1 e w = turn c2 e w.
Proof.
  intros A. destruct e as [u|q| |u|f]; cbn [turn]; try reflexivity.
  - unfold start. rewrite (get_main_menu_config c1 c2 _ A). reflexivity.
  - unfold button_handler, back_to_main.
    rewrite (get_main_menu_config c1 c2 _ A). reflexivity.
Qed.

Lemma run_config c1 c2 evs :
  admin_ids c1 = admin_ids c2 -> forall w, run c1 evs w = run c2 evs w.
Proof.
  intros A. induction evs as [|e evs IH]; intros w; [reflexivity|].
  cbn [run foldl]. rewrite (turn_config c1 c2 e w A). apply IH.
Qed.

Lemma button_handler_trial config query w :
  data query = "trial" ->
  button_handler config query w =
    handle_trial query (set_out (out w ++ [answer None]) w).
Proof.
  intros D. unfold button_handler. rewrite bind_eq, emit_eq. cbv beta iota.
  rewrite D. reflexivity.
Qed.

(** C10. The trial does not depend on the configured durations: two
    configurations that differ only in [trial_days] and
    [referred_trial_days] give the same world after every run, and the
    trial granted to a user lasts 3 or 7 days under both, whatever these
    two values are. *)
Theorem trial_ignores_configuration config1 config2 :
  same_except_trial_days config1 config2 ->
  (forall evs w, run config1 evs w = run config2 evs w) /\
  (forall query w u,
     data query = "trial" ->
     fault w = None ->
     users (db w) !! tg_id (from_user query) = Some u ->
     is_trial_used u = 0 ->
     exists days u',
       (days = 3 \/ days = 7) /\
       users (db (turn config1 (ev_button query) w)) !! tg_id (from_user query)
         = Some u' /\
       users (db (turn config2 (ev_button query) w)) !! tg_id (from_user query)
         = Some u' /\
       subscription_end u' = Some (time w (ticks w) + timedelta_days days)).
Proof.
  intros (_ & A & _). split.
  - intros evs w. apply run_config, A.
  - intros query w u D F U T.
    assert (T' : truthy (is_trial_used u) = false) by (unfold truthy; rewrite T; reflexivity).
    set (w1 := set_out (out w ++ [answer None]) w).
    pose proof (handle_trial_granted query w1 u F U T') as E. cbv zeta in E.
    exists (if truthy_opt (referrer_id u) then 7 else 3),
           (with_trial (time w (ticks w)
                        + timedelta_days (if truthy_opt (referrer_id u) then 7 else 3)) u).
    split; [destruct (truthy_opt (referrer_id u)); auto|].
    rewrite <- (turn_config config1 config2 _ w A). cbn [turn].
    rewrite (button_handler_trial config1 query w D). fold w1. rewrite E.
    cbn [snd db set_out set_db].
    split; [|split]; try (apply users_after_trial; exact U). reflexivity.
Qed.

(** ** Action tokens *)

Lemma startswith_cons s c p :
  startswith s (String c p) = true ->
  exists s', s = String c s' /\ startswith s' p = true.
Proof.
  unfold startswith. destruct s as [|b s']; cbn; [discriminate|].
  destruct (ascii_dec c b) as [->|]; [|discriminate]. eauto.
Qed.

Ltac peel H :=
  repeat (let s' := fresh "s" in let E := fresh "E" in
          apply startswith_cons in H; destruct H as (s' & E & H); subst).

(** A selection token goes to its screen, or raises what its decoding
    raises, once the callback is answered. *)
Lemma button_handler_selection config query w r :
  selection_of (data query) = Some r ->
  button_handler config query w = (lift r ≫= perform query) (answered w).
Proof.
  unfold selection_of, button_handler. rewrite bind_eq, emit_eq. cbv beta iota zeta.
  fold (answered w). generalize (answered w). clear w. intros w.
  destruct (startswith (data query) "plan_") eqn:P.
  { intros [= <-]. peel P. rewrite E. cbn [startswith String.prefix String.eqb Ascii.eqb].
    cbn. rewrite !bind_eq, !lift_eq.
    destruct (py_index _ 1) as [f|e]; cbn [rbind]; [|reflexivity].
    destruct (py_int f); reflexivity. }
  destruct (startswith (data query) "dur_") eqn:D.
  { intros [= <-]. peel D. rewrite E. cbn.
    match goal with |- context [split "_" ?s] =>
      destruct (split "_" s) as [|a [|b [|c l]]] end; try reflexivity.
    rewrite !bind_eq, !lift_eq.
    destruct (py_int a); cbn [rbind]; [|reflexivity].
    rewrite !bind_eq, !lift_eq.
    destruct (py_int b); reflexivity. }
  destruct (startswith (data query) "pay_") eqn:Y; [|discriminate].
  intros [= <-]. peel Y. rewrite E. cbn.
  rewrite !bind_eq, !lift_eq.
  destruct (py_index _ 1) as [m|e]; cbn [rbind]; [|reflexivity].
  rewrite !bind_eq, !lift_eq.
  destruct (py_index _ 2) as [f|e]; cbn [rbind]; [|reflexivity].
  destruct (py_int f); cbn [rbind]; [|reflexivity].
  rewrite !bind_eq, !lift_eq.
  destruct (py_index _ 3) as [g|e]; cbn [rbind]; [|reflexivity].
  destruct (py_int g); reflexivity.
Qed.


Lemma py_index_plans (i : Z) :
  -3 <= i < 3 -> exists plan, py_index PLANS_plans i = Ok plan /\ plan ∈ PLANS_plans.
Proof.
  intros R.
  assert (i = -3 \/ i = -2 \/ i = -1 \/ i = 0 \/ i = 1 \/ i = 2) as C by lia.
  clear R.
  destruct C as [E|[E|[E|[E|[E|E]]]]]; rewrite E; eexists;
    (split; [reflexivity|]); unfold PLANS_plans;
    rewrite !elem_of_cons; auto 6.
Qed.

Lemma str_inj (a b : Z) : str a = str b -> a = b.
Proof. unfold str. apply (inj pretty). Qed.

(** No plan has a price for a duration outside the list of durations. *)
Lemma prices_missing plan d :
  plan ∈ PLANS_plans -> d ∉ PLANS_durations -> prices plan !! str d = None.
Proof.
  intros P D.
  assert (N : "30" <> str d /\ "60" <> str d /\ "180" <> str d /\ "365" <> str d).
  { unfold PLANS_durations in D. rewrite !not_elem_of_cons in D.
    destruct D as (D1 & D2 & D3 & D4 & _).
    repeat split; intros E;
      [ change "30" with (str 30) in E | change "60" with (str 60) in E
      | change "180" with (str 180) in E | change "365" with (str 365) in E ];
      apply str_inj in E; congruence. }
  destruct N as (N1 & N2 & N3 & N4).
  unfold PLANS_plans in P. rewrite !elem_of_cons in P.
  destruct P as [->|[->|[->|P]]]; [| | |inversion P];
    cbn [prices]; unfold mk_prices;
    rewrite !lookup_insert_ne by assumption; apply lookup_empty.
Qed.



(** ** The sample session *)

Lemma registered_row : users (db registered) !! 42 = Some alice_registered.
Proof. vm_compute. reflexivity. Qed.

Lemma subscribed_row : users (db subscribed) !! 42 = Some alice_subscribed.
Proof. vm_compute. reflexivity. Qed.

Lemma tried_row : users (db tried) !! 42 = Some alice_tried.
Proof. vm_compute. reflexivity. Qed.

(** In the sample session the flag of Alice flips exactly once, on the first
    of her two trial attempts. *)
Example sample_flips :
  flips 42 (trace sample_config
              [ev_button (press "trial"); ev_button (press "trial")] subscribed) = 1%nat.
Proof. vm_compute. reflexivity. Qed.

Lemma reachable_run config evs : forall w,
  reachable config w -> reachable config (run config evs w).
Proof.
  induction evs as [|e evs IH]; intros w R; [exact R|].
  apply IH. apply reach_turn, R.
Qed.

Lemma sample_reachable :
  reachable sample_config registered /\ reachable sample_config subscribed /\
  reachable sample_config tried.
Proof.
  assert (R : reachable sample_config registered).
  { apply reachable_run, reach_initial. }
  assert (R' : reachable sample_config subscribed).
  { apply reachable_run, R. }
  repeat split; try assumption. apply reachable_run, R'.
Qed.

(** Scenarios A to E of section 8, run on the model. *)
Example scenario_A :
  let w := turn sample_config (ev_button (press "trial")) registered in
  users (db w) !! 42 = Some (with_trial (1000 + timedelta_days 3) alice_registered).
Proof. vm_compute. reflexivity. Qed.

Example scenario_B :
  let w := run sample_config
             [ev_start {| effective_user := alice; args := ["ref77"] |};
              ev_button (press "lang_ru"); ev_button (press "trial")]
             (initial still_clock None) in
  (referrer_id <$> users (db w) !! 42) = Some (Some 77) /\
  (subscription_end <$> users (db w) !! 42) = Some (Some (1000 + timedelta_days 7)).
Proof. vm_compute. split; reflexivity. Qed.

Example scenario_C :
  let before := 1000 + timedelta_days 10 in
  let w0 := set_db (run_stmt (UPDATE_users_purchase before 0 42) (db registered))
                   registered in
  let w := turn sample_config (ev_button (press "pay_card_0_30")) w0 in
  (subscription_end <$> users (db w) !! 42) = Some (Some (1000 + timedelta_days 40)) /\
  (total_paid <$> users (db w) !! 42) = Some 5 /\
  length (subscriptions (db w)) = S (length (subscriptions (db w0))).
Proof. vm_compute. repeat split; reflexivity. Qed.

Example scenario_D :
  let before := 1000 - timedelta_days 5 in
  let w0 := set_db (run_stmt (UPDATE_users_purchase before 0 42) (db registered))
                   registered in
  let w := turn sample_config (ev_button (press "pay_card_0_60")) w0 in
  (subscription_end <$> users (db w) !! 42) = Some (Some (1000 + timedelta_days 60)).
Proof. vm_compute. reflexivity. Qed.

Example scenario_E :
  button_handler sample_config (press "plan_9") registered
    = (Raise IndexError, answered registered).
Proof. vm_compute. reflexivity. Qed.

Example scenario_gateway :
  let w := turn sample_config (ev_payment stars_payment) subscribed in
  (subscription_end <$> users (db w) !! 42)
     = Some (Some (1000 + timedelta_days 30 + timedelta_days 60)) /\
  (total_paid <$> users (db w) !! 42) = Some 23 /\
  length (subscriptions (db w)) = 2%nat /\
  (p_status <$> payments (db w)) = ["completed"].
Proof. vm_compute. repeat split; reflexivity. Qed.

(** A store that fails at the commit leaves nothing behind. *)
Example scenario_gateway_fault :
  let w := turn sample_config (ev_payment stars_payment)
                (set_fault (Some 4%nat) subscribed) in
  db w = db subscribed.
Proof. vm_compute. reflexivity. Qed.

(** ** The laws on the sample session *)

Lemma main_menu_variants_witness :
  exists kb, get_main_menu sample_config 42 tried = (Ok kb, tried) /\
             entries kb = localized "en" post_trial_menu.
Proof.
  destruct (main_menu_variants sample_config 42 tried
              ltac:(vm_compute; reflexivity)) as (kb & E & K).
  exists kb. split; [exact E|]. rewrite K. vm_compute. reflexivity.
Defined.


Lemma trial_once_witness :
  (flips 42 (trace sample_config
               [ev_button (press "trial"); ev_button (press "trial")] subscribed)
     <= 1)%nat /\
  db (snd (handle_trial (press "trial") tried)) = db tried /\
  handle_trial (press "trial") tried
    = (Ok tt, set_out (out tried ++ [already_granted_screen "en"]) tried).
Proof.
  destruct (trial_once sample_config 42) as (Once & Rejected).
  split; [apply Once|].
  destruct (Rejected (press "trial") tried alice_tried
              ltac:(reflexivity) ltac:(vm_compute; reflexivity)
              ltac:(vm_compute; reflexivity)) as (D & E).
  split; [exact D|].
  exact (E ltac:(vm_compute; reflexivity)).
Defined.

Lemma referral_bonus_witness :
  exists w' u',
    handle_trial (press "trial") registered = (Ok tt, w') /\
    users (db w') !! 42 = Some u' /\
    subscription_end u' = Some (1000 + timedelta_days 3) /\
    is_trial_used u' = 1.
Proof.
  destruct (referral_bonus sample_config (press "trial") registered alice_registered
              (reach_turn sample_config _ (ev_button (press "lang_en"))
                 (reach_turn sample_config _
                    (ev_start {| effective_user := alice; args := [] |})
                    (reach_initial sample_config still_clock None)))
              ltac:(vm_compute; reflexivity) ltac:(vm_compute; reflexivity)
              ltac:(reflexivity))
    as (w' & u' & E & U & _ & S & T & _).
  exists w', u'. repeat split; assumption.
Defined.

Lemma trial_shortens_entitlement_witness :
  exists w' u',
    handle_trial (press "trial") subscribed = (Ok tt, w') /\
    users (db w') !! 42 = Some u' /\
    subscription_end alice_subscribed = Some (1000 + timedelta_days 30) /\
    subscription_end u' = Some (1000 + timedelta_days 3).
Proof.
  destruct (trial_shortens_entitlement (press "trial") subscribed alice_subscribed
              (1000 + timedelta_days 30)
              ltac:(vm_compute; reflexivity) ltac:(vm_compute; reflexivity)
              ltac:(reflexivity) ltac:(reflexivity) ltac:(vm_compute; reflexivity))
    as (w' & u' & E & U & S & _).
  exists w', u'. repeat split; assumption.
Defined.


Lemma trial_ignores_configuration_witness :
  trial_days sample_config <> trial_days other_config /\
  run sample_config [ev_button (press "trial")] registered
    = run other_config [ev_button (press "trial")] registered /\
  exists days u',
    (days = 3 \/ days = 7) /\
    users (db (turn sample_config (ev_button (press "trial")) registered)) !! 42
      = Some u' /\
    users (db (turn other_config (ev_button (press "trial")) registered)) !! 42
      = Some u' /\
    subscription_end u' = Some (1000 + timedelta_days days).
Proof.
  destruct (trial_ignores_configuration sample_config other_config
              ltac:(repeat split; reflexivity)) as (Runs & Trial).
  split; [vm_compute; discriminate|].
  split; [apply Runs|].
  exact (Trial (press "trial") registered alice_registered
           ltac:(reflexivity) ltac:(vm_compute; reflexivity)
           ltac:(vm_compute; reflexivity) ltac:(reflexivity)).
Defined.



Lemma gateway_atomicity_witness :
  db (snd (successful_payment_callback stars_payment
             (set_fault (Some 4%nat) subscribed))) = db subscribed /\
  both_persisted stars_payment (db subscribed)
    (db (snd (successful_payment_callback stars_payment subscribed))).
Proof.
  split.
  - exact (proj2 (proj2 (proj2 (gateway_atomicity stars_payment
                                  (set_fault (Some 4%nat) subscribed))))
                 4%nat ltac:(reflexivity) ltac:(lia)).
  - exact (proj1 (proj2 (proj2 (gateway_atomicity stars_payment subscribed)))
                 ltac:(vm_compute; reflexivity)).
Defined.

(** ** Where the specification and the code part *)



(** * Further properties of the code *)

(** ** [int(str(n))] *)

Lemma digit_value_char (n : N) :
  (n < 10)%N -> digit_value (pretty_N_char n) = Some (Z.of_N n).
Proof.
  intros L. destruct n as [|p]; [reflexivity|].
  do 4 (try destruct p as [p|p|]); first [reflexivity | lia].
Qed.

Lemma char_not_underscore (n : N) : Ascii.eqb (pretty_N_char n) "_" = false.
Proof. unfold pretty_N_char. repeat case_match; reflexivity. Qed.

(** The digits of [x] in front of [s] are read back as [x]. *)
Lemma int_digits_pretty_go (x : N) : forall s,
  (0 < x)%N -> int_digits (pretty_N_go x s) 0 false = int_digits s (Z.of_N x) true.
Proof.
  induction (N.lt_wf_0 x) as [x _ IH]. intros s P.
  rewrite pretty_N_go_step by exact P.
  assert (M : (x mod 10 < 10)%N) by (apply N.mod_lt; lia).
  assert (D : (x = 10 * (x / 10) + x mod 10)%N) by (apply N.div_mod; lia).
  destruct (N.eq_dec (x / 10)%N 0%N) as [Q|Q].
  - rewrite Q, pretty_N_go_0. cbn [int_digits].
    rewrite (digit_value_char _ M). f_equal.
    rewrite Q in D. rewrite D at 2. clear. generalize (x mod 10)%N. intros m. lia.
  - rewrite IH; [|apply N.div_lt; lia|apply N.neq_0_lt_0, Q]. cbn [int_digits].
    rewrite (digit_value_char _ M). f_equal.
    rewrite D at 3. clear. generalize (x mod 10)%N, (x / 10)%N. intros q m. lia.
Qed.

Lemma pretty_go_first (x : N) : forall s,
  (0 < x)%N -> exists n r, (n < 10)%N /\ pretty_N_go x s = String (pretty_N_char n) r.
Proof.
  induction (N.lt_wf_0 x) as [x _ IH]. intros s P.
  rewrite pretty_N_go_step by exact P.
  destruct (N.eq_dec (x / 10)%N 0%N) as [Q|Q].
  - rewrite Q, pretty_N_go_0. eexists _, _. split; [|reflexivity].
    apply N.mod_lt. lia.
  - apply IH; [apply N.div_lt; lia | apply N.neq_0_lt_0, Q].
Qed.

Lemma int_of_str_digit_first (n : N) (r : string) :
  (n < 10)%N ->
  int_of_str (String (pretty_N_char n) r)
    = int_digits (String (pretty_N_char n) r) 0 false.
Proof.
  destruct n as [|p]; [reflexivity|]; intros L.
  do 4 (try destruct p as [p|p|]); first [reflexivity | lia].
Qed.

Lemma int_of_str_pretty_N (x : N) :
  (0 < x)%N -> int_of_str (pretty_N_go x "") = Some (Z.of_N x).
Proof.
  intros P. destruct (pretty_go_first x "" P) as (n & r & L & E).
  rewrite E, (int_of_str_digit_first n r L), <- E.
  rewrite (int_digits_pretty_go x "" P). reflexivity.
Qed.

(** Round trip: [int(str(z)) == z] for every integer. *)
Lemma int_of_str_str (z : Z) : int_of_str (str z) = Some z.
Proof.
  unfold str, pretty, pretty_Z. destruct z as [|p|p]; [reflexivity| |].
  - unfold pretty, pretty_positive, pretty, pretty_N.
    case_decide; [discriminate|].
    rewrite int_of_str_pretty_N by lia. reflexivity.
  - unfold pretty, pretty_positive, pretty, pretty_N.
    case_decide; [discriminate|].
    change (int_of_str ("-" +:+ pretty_N_go (N.pos p) ""))
      with (Z.opp <$> int_digits (pretty_N_go (N.pos p) "") 0 false).
    rewrite int_digits_pretty_go by lia. reflexivity.
Qed.

(** ** [str(n)] holds no underscore *)

Lemma split_cons_other sep c s :
  Ascii.eqb c sep = false ->
  split sep (String c s) = String c (hd "" (split sep s)) :: tl (split sep s).
Proof. intros E. cbn [split]. rewrite E. destruct (split sep s); reflexivity. Qed.

Lemma split_pretty_go (x : N) : forall s,
  split "_" (pretty_N_go x s)
    = pretty_N_go x (hd "" (split "_" s)) :: tl (split "_" s).
Proof.
  induction (N.lt_wf_0 x) as [x _ IH]. intros s.
  destruct (N.eq_dec x 0%N) as [->|P].
  - rewrite !pretty_N_go_0. destruct s as [|c s]; [reflexivity|].
    cbn [split]. destruct (Ascii.eqb c "_"); [reflexivity|].
    destruct (split "_" s); reflexivity.
  - rewrite !(pretty_N_go_step x) by lia.
    rewrite IH by (apply N.div_lt; lia).
    rewrite split_cons_other by apply char_not_underscore. reflexivity.
Qed.

Lemma pretty_go_app (x : N) : forall s r,
  pretty_N_go x s +:+ r = pretty_N_go x (s +:+ r).
Proof.
  induction (N.lt_wf_0 x) as [x _ IH]. intros s r.
  destruct (N.eq_dec x 0%N) as [->|P]; [rewrite !pretty_N_go_0; reflexivity|].
  rewrite !(pretty_N_go_step x) by lia.
  rewrite IH by (apply N.div_lt; lia). reflexivity.
Qed.

(** [(str(z) + "_" + rest).split("_")] starts with [str(z)]. *)
Lemma split_str_sep (z : Z) (rest : string) :
  split "_" (str z +:+ String "_" rest) = str z :: split "_" rest.
Proof.
  assert (N : forall x, split "_" (pretty_N_go x "" +:+ String "_" rest)
                        = pretty_N_go x "" :: split "_" rest).
  { intros x. rewrite pretty_go_app, split_pretty_go. cbn. reflexivity. }
  unfold str, pretty, pretty_Z. destruct z as [|p|p]; [reflexivity| |];
    unfold pretty, pretty_positive, pretty, pretty_N;
    (case_decide; [discriminate|]).
  - apply N.
  - change (("-" +:+ pretty_N_go (N.pos p) "") +:+ String "_" rest)
      with (String "-" (pretty_N_go (N.pos p) "" +:+ String "_" rest)).
    rewrite split_cons_other by reflexivity. rewrite N. reflexivity.
Qed.

Lemma split_str (z : Z) : split "_" (str z) = [str z].
Proof.
  assert (N : forall x, split "_" (pretty_N_go x "") = [pretty_N_go x ""]).
  { intros x. rewrite split_pretty_go. reflexivity. }
  unfold str, pretty, pretty_Z. destruct z as [|p|p]; [reflexivity| |];
    unfold pretty, pretty_positive, pretty, pretty_N;
    (case_decide; [discriminate|]).
  - apply N.
  - change ("-" +:+ pretty_N_go (N.pos p) "")
      with (String "-" (pretty_N_go (N.pos p) "")).
    rewrite split_cons_other by reflexivity. rewrite N. reflexivity.
Qed.

(** ** The purchase flow *)

Lemma mk_prices_lookup a b c d :
  mk_prices a b c d !! "30" = Some a /\ mk_prices a b c d !! "60" = Some b /\
  mk_prices a b c d !! "180" = Some c /\ mk_prices a b c d !! "365" = Some d.
Proof. unfold mk_prices. repeat split; reflexivity. Qed.

(** Every plan has a positive price for every listed duration. *)
Lemma catalog_prices plan d :
  plan ∈ PLANS_plans -> d ∈ PLANS_durations ->
  exists p, prices plan !! str d = Some p /\ 0 < p.
Proof.
  unfold PLANS_plans, PLANS_durations. rewrite !elem_of_cons.
  intros [->|[->|[->|P]]] [->|[->|[->|[->|D]]]];
    try (inversion P; fail); try (inversion D; fail);
    eexists; (split; [vm_compute; reflexivity | reflexivity]).
Qed.

Lemma app_cons c s r : String c s +:+ r = String c (s +:+ r).
Proof. reflexivity. Qed.

Lemma app_nil r : "" +:+ r = r.
Proof. reflexivity. Qed.

Ltac app_norm := repeat first [rewrite app_cons | rewrite app_nil].

#[local] Arguments int_of_str : simpl never.

Lemma prefix_nil s : String.prefix "" s = true.
Proof. destruct s; reflexivity. Qed.

(** A non-negative index within the list is plain lookup. *)
Lemma py_index_nat {A} (l : list A) (n : nat) (x : A) :
  l !! n = Some x -> py_index l (Z.of_nat n) = Ok x.
Proof.
  intros L. pose proof (lookup_lt_Some _ _ _ L) as B. unfold py_index.
  destruct (Z.ltb_spec (Z.of_nat n) 0); [lia|].
  destruct (Z.leb_spec 0 (Z.of_nat n)); [|lia].
  destruct (Z.ltb_spec (Z.of_nat n) (Z.of_nat (length l))); [|lia].
  cbn [andb]. rewrite Nat2Z.id, L. reflexivity.
Qed.

Lemma py_index_1 {A} (a b : A) l : py_index (a :: b :: l) 1 = Ok b.
Proof. exact (py_index_nat (a :: b :: l) 1%nat b eq_refl). Qed.

Lemma py_index_2 {A} (a b c : A) l : py_index (a :: b :: c :: l) 2 = Ok c.
Proof. exact (py_index_nat (a :: b :: c :: l) 2%nat c eq_refl). Qed.

Lemma py_index_3 {A} (a b c d : A) l : py_index (a :: b :: c :: d :: l) 3 = Ok d.
Proof. exact (py_index_nat (a :: b :: c :: d :: l) 3%nat d eq_refl). Qed.

Ltac py_index_lit := rewrite ?py_index_1, ?py_index_2, ?py_index_3.

Lemma press_plan config query w i :
  data query = plan_token i ->
  button_handler config query w = show_durations query i (answered w).
Proof.
  intros D. rewrite (button_handler_selection config query w (Ok (sel_plan i))).
  - reflexivity.
  - rewrite D. unfold selection_of, plan_token, startswith. app_norm.
    cbn [String.prefix split Ascii.eqb Bool.eqb ascii_dec ascii_rec ascii_rect
         bool_dec bool_rec bool_rect sumbool_rec sumbool_rect eq_rec_r eq_rec
         eq_rect eq_sym f_equal].
    rewrite ?prefix_nil, split_str. py_index_lit.
    cbn [rbind]. unfold py_int. rewrite int_of_str_str. reflexivity.
Qed.

Ltac token_norm :=
  unfold startswith; app_norm;
  cbn [String.prefix split Ascii.eqb Bool.eqb ascii_dec ascii_rec ascii_rect
       bool_dec bool_rec bool_rect sumbool_rec sumbool_rect eq_rec_r eq_rec
       eq_rect eq_sym f_equal];
  rewrite ?prefix_nil, ?split_str_sep, ?split_str.

Lemma press_dur config query w i d :
  data query = dur_token i d ->
  button_handler config query w = show_payment_methods query i d (answered w).
Proof.
  intros D. rewrite (button_handler_selection config query w (Ok (sel_duration i d))).
  - reflexivity.
  - rewrite D. unfold selection_of, dur_token. token_norm.
    unfold py_int. rewrite !int_of_str_str. reflexivity.
Qed.

Lemma press_pay config query w method i d :
  method ∈ ["stars"; "card"; "crypto"] ->
  data query = pay_token method i d ->
  button_handler config query w
    = process_payment query (tg_id (from_user query)) method i d (answered w).
Proof.
  intros M D.
  rewrite (button_handler_selection config query w (Ok (sel_payment method i d))).
  - reflexivity.
  - rewrite D. unfold selection_of, pay_token. rewrite !elem_of_cons in M.
    destruct M as [->|[->|[->|M]]]; [| | |inversion M]; token_norm;
      py_index_lit; cbn [rbind]; unfold py_int;
      rewrite !int_of_str_str; reflexivity.
Qed.

(** X1. The token on a button of a purchase screen is decoded by the
    dispatcher to the very plan index, duration and method the screen put
    in it, for every integer (negative ones included). *)
Theorem callback_round_trip config query w i d :
  (data query = plan_token i ->
     button_handler config query w = show_durations query i (answered w)) /\
  (data query = dur_token i d ->
     button_handler config query w = show_payment_methods query i d (answered w)) /\
  (forall method, method ∈ ["stars"; "card"; "crypto"] ->
     data query = pay_token method i d ->
     button_handler config query w
       = process_payment query (tg_id (from_user query)) method i d (answered w)).
Proof.
  split; [apply press_plan|]. split; [apply press_dur|].
  intros method. apply press_pay.
Qed.

Lemma show_plans_renders query w :
  fault w = None ->
  renders (show_plans query) w ((plan_token <$> [0; 1; 2]) ++ ["back_main"]).
Proof.
  intros F. unfold renders, show_plans, PLANS_plans.
  cbn [show_plans_loop prices]. unfold py_getitem.
  hrun F. rewrite !(proj1 (mk_prices_lookup _ _ _ _)). hrun F.
  eexists _, _. split; reflexivity.
Qed.

Lemma durations_listed :
  30 ∈ PLANS_durations /\ 60 ∈ PLANS_durations /\
  180 ∈ PLANS_durations /\ 365 ∈ PLANS_durations.
Proof. unfold PLANS_durations. rewrite !elem_of_cons. auto 10. Qed.

Lemma show_durations_renders query w i :
  fault w = None -> -3 <= i < 3 ->
  renders (show_durations query i) w ((dur_token i <$> PLANS_durations) ++ ["plans"]).
Proof.
  intros F R. destruct (py_index_plans i R) as (plan & X & P).
  destruct (catalog_prices plan 30 P (proj1 durations_listed))
    as (p30 & E30 & _).
  destruct (catalog_prices plan 60 P (proj1 (proj2 durations_listed)))
    as (p60 & E60 & _).
  destruct (catalog_prices plan 180 P (proj1 (proj2 (proj2 durations_listed))))
    as (p180 & E180 & _).
  destruct (catalog_prices plan 365 P (proj2 (proj2 (proj2 durations_listed))))
    as (p365 & E365 & _).
  unfold renders, show_durations, PLANS_durations.
  cbn [show_durations_loop]. unfold py_getitem.
  hrun F. rewrite X. hrun F. rewrite E30, E60, E180, E365. hrun F.
  eexists _, _. split; reflexivity.
Qed.

Lemma show_payment_methods_renders query w i d :
  fault w = None -> -3 <= i < 3 -> d ∈ PLANS_durations ->
  renders (show_payment_methods query i d) w
    [pay_token "stars" i d; pay_token "card" i d; pay_token "crypto" i d; plan_token i].
Proof.
  intros F R D. destruct (py_index_plans i R) as (plan & X & P).
  destruct (catalog_prices plan d P D) as (p & E & _).
  unfold renders, show_payment_methods, py_getitem.
  hrun F. rewrite X. hrun F. rewrite E. hrun F.
  eexists _, _. split; reflexivity.
Qed.

(** X2. While the store answers, the three purchase screens never raise on
    a plan index that resolves (-3 to 2) and a listed duration, change
    nothing but the screen, and offer exactly: the plans and Back; the four
    durations of the plan and Back to the plans; the three payment methods
    and Back to the plan. *)
Theorem purchase_screens query w :
  fault w = None ->
  renders (show_plans query) w ((plan_token <$> [0; 1; 2]) ++ ["back_main"]) /\
  (forall i, -3 <= i < 3 ->
     renders (show_durations query i) w
       ((dur_token i <$> PLANS_durations) ++ ["plans"])) /\
  (forall i d, -3 <= i < 3 -> d ∈ PLANS_durations ->
     renders (show_payment_methods query i d) w
       [pay_token "stars" i d; pay_token "card" i d; pay_token "crypto" i d;
        plan_token i]).
Proof.
  intros F. split; [exact (show_plans_renders query w F)|]. split.
  - intros i R. exact (show_durations_renders query w i F R).
  - intros i d R D. exact (show_payment_methods_renders query w i d F R D).
Qed.



(** ** Language selection and registration *)








(** ** [/start] *)

Lemma start_unknown config update w :
  fault w = None ->
  users (db w) !! tg_id (effective_user update) = None ->
  start config update w =
    (Ok tt,
     let w1 := match start_referrer (args update) with
               | Some r => set_user_data
                             (<[tg_id (effective_user update) := r]> (user_data w)) w
               | None => w
               end in
     set_out (out w1 ++ [language_screen]) w1).
Proof.
  intros F U. unfold start. hrun F. rewrite U. hrun F.
  unfold start_referrer.
  destruct (args update) as [|a0 rest]; [hrun F; reflexivity|].
  destruct (startswith a0 "ref"); [|hrun F; reflexivity].
  destruct (int_of_str (drop_str 3 a0)) as [r|]; [|hrun F; reflexivity].
  destruct (truthy r); hrun F; reflexivity.
Qed.

Lemma start_known config update w u :
  fault w = None ->
  users (db w) !! tg_id (effective_user update) = Some u ->
  exists w' message keyboard,
    start config update w = (Ok tt, w') /\
    db w' = db w /\ user_data w' = user_data w /\
    out w' = out w ++ [reply_text message keyboard] /\
    exists menu, entries keyboard
                 = localized (lang_of (db w) (tg_id (effective_user update))) menu.
Proof.
  intros F U. unfold start. hrun F. rewrite U. hrun F.
  pose proof (get_subscription_status_ok (tg_id (effective_user update)) w F) as St.
  cbv zeta in St. rewrite St. clear St.
  destruct (users (db w) !! tg_id (effective_user update) ≫= subscription_end) as [e|];
    [destruct (e <? time w (ticks w))|]; cbv beta iota;
    match goal with |- exists _ _ _, _ ?w2 = _ /\ _ =>
      let Fm := fresh "Fm" in
      assert (Fm : fault w2 = None) by exact F;
      destruct (get_main_menu_ok config (tg_id (effective_user update)) w2 Fm)
        as (kb & Ek & Kk);
      rewrite bind_eq, (t_ok _ _ _ w2 Fm); cbv beta iota;
      rewrite bind_eq, Ek; cbv beta iota; rewrite emit_eq
    end;
    (eexists _, _, kb; split; [reflexivity|];
     cbn [db set_out set_db set_ticks out user_data];
     repeat split; eexists; exact Kk).
Qed.

Lemma drop_ref s : drop_str 3 ("ref" +:+ s) = s.
Proof. reflexivity. Qed.

(** The argument built for a referrer is read back as that referrer. *)
Lemma start_referrer_ref_arg r rest :
  start_referrer (ref_arg r :: rest) = if r =? 0 then None else Some r.
Proof.
  unfold start_referrer, ref_arg, startswith. app_norm.
  cbn [String.prefix ascii_dec ascii_rec ascii_rect bool_dec bool_rec bool_rect
       sumbool_rec sumbool_rect eq_rec_r eq_rec eq_rect eq_sym f_equal].
  rewrite prefix_nil. cbn [drop_str]. rewrite int_of_str_str.
  unfold truthy. destruct (r =? 0); reflexivity.
Qed.

(** X6. [/start] writes nothing to the database. For a registered user it
    ignores its arguments and shows the welcome-back screen; for an unknown
    identity it shows the language keyboard and remembers a referrer only
    when the first argument (taken in ASCII) is [ref] followed by a
    non-zero integer, which the argument [ref<r>] is for every non-zero
    [r]. *)
Theorem start_referral_capture config update w :
  fault w = None ->
  let uid := tg_id (effective_user update) in
  (forall u, users (db w) !! uid = Some u ->
     exists w' message keyboard,
       start config update w = (Ok tt, w') /\
       db w' = db w /\ user_data w' = user_data w /\
       out w' = out w ++ [reply_text message keyboard]) /\
  (users (db w) !! uid = None ->
     Forall (fun a => ascii_only a = true) (args update) ->
     exists w',
       start config update w = (Ok tt, w') /\
       db w' = db w /\
       out w' = out w ++ [language_screen] /\
       user_data w' = match start_referrer (args update) with
                      | Some r => <[uid := r]> (user_data w)
                      | None => user_data w
                      end) /\
  (forall r rest, r <> 0 -> start_referrer (ref_arg r :: rest) = Some r) /\
  (forall rest, start_referrer (ref_arg 0 :: rest) = None) /\
  start_referrer [] = None.
Proof.
  intros F uid. split; [|split; [|split; [|split]]].
  - intros u U.
    destruct (start_known config update w u F U) as (w' & m & k & E & D & S & O & _).
    eauto 10.
  - intros U _. rewrite (start_unknown config update w F U). cbv zeta.
    eexists. split; [reflexivity|].
    destruct (start_referrer (args update)); repeat split.
  - intros r rest N. rewrite start_referrer_ref_arg.
    destruct (Z.eqb_spec r 0); [contradiction | reflexivity].
  - intros rest. rewrite start_referrer_ref_arg. reflexivity.
  - reflexivity.
Qed.


(** ** What a turn writes *)

Lemma py_index_elem {A} (l : list A) (i : Z) (x : A) :
  py_index l i = Ok x -> x ∈ l.
Proof.
  unfold py_index.
  destruct ((0 <=? _) && _); [|discriminate].
  destruct (l !! _) as [y|] eqn:L; [|discriminate].
  intros [= <-]. eapply list_elem_of_lookup_2, L.
Qed.

Lemma catalog_price_pos plan k p :
  plan ∈ PLANS_plans -> prices plan !! k = Some p -> 0 < p.
Proof.
  unfold PLANS_plans. rewrite !elem_of_cons.
  intros [->|[->|[->|P]]]; [| | |inversion P]; cbn [prices]; unfold mk_prices;
    rewrite !lookup_insert; repeat case_decide; rewrite ?lookup_empty;
    intros [= <-]; reflexivity.
Qed.

Lemma catalog_duration plan d p :
  plan ∈ PLANS_plans -> prices plan !! str d = Some p -> d ∈ PLANS_durations.
Proof.
  intros P E. destruct (decide (d ∈ PLANS_durations)) as [D|D]; [exact D|].
  rewrite (prices_missing plan d P D) in E. discriminate.
Qed.

Section Issued.
Variable I : Store -> Prop.
Variable uid : Z.
Hypothesis I_issued : forall q s, issued_by uid q -> I s -> I (run_stmt q s).
#[local] Abbreviation Inv := (world_inv I any).

Ltac kissue :=
  apply keeps_execute; [assumption | apply I_issued; [|assumption]].

Ltac kreadonly :=
  first [ apply keeps_t | apply keeps_t_button | apply keeps_get_main_menu
        | apply keeps_get_subscription_status
        | apply keeps_show_plans | apply keeps_show_durations
        | apply keeps_show_payment_methods | apply keeps_back_to_main ].

Ltac ktail := kauto_with kreadonly.

Lemma issued_create_user uname fname language referrer :
  keeps Inv any (create_user uid uname fname language referrer).
Proof.
  unfold create_user.
  eapply (keeps_bind _ I); [apply keeps_connect | intros conn Ic].
  eapply (keeps_bind _ any); [kbase | intros ts _].
  eapply (keeps_bind _ I); [kissue; reflexivity | intros conn' Ic'].
  apply keeps_commit, Ic'.
Qed.

Lemma issued_set_language language : keeps Inv any (set_language uid language).
Proof.
  unfold set_language.
  eapply (keeps_bind _ I); [apply keeps_connect | intros conn Ic].
  eapply (keeps_bind _ I); [kissue; reflexivity | intros conn' Ic'].
  apply keeps_commit, Ic'.
Qed.

Lemma issued_handle_trial query :
  tg_id (from_user query) = uid -> keeps Inv any (handle_trial query).
Proof.
  intros E. unfold handle_trial. rewrite E.
  eapply (keeps_bind _ any); [kbase | intros [user|] _; [|kbase]].
  eapply (keeps_bind _ any); [|intros [m k] _; kbase].
  destruct (truthy (is_trial_used user)); [ktail|].
  eapply (keeps_bind _ any); [kbase | intros now _].
  eapply (keeps_bind _ I); [apply keeps_connect | intros conn Ic].
  eapply (keeps_bind _ I); [kissue; reflexivity | intros conn' Ic'].
  eapply (keeps_bind _ any); [apply keeps_commit, Ic' | intros _ _].
  ktail.
Qed.

Lemma extension_after (E : option Z) (now d : Z) :
  now + timedelta_days d <=
  (if match E with Some e => e | None => now end <? now
   then now else match E with Some e => e | None => now end) + timedelta_days d.
Proof.
  destruct E as [e|].
  - destruct (Z.ltb_spec e now); lia.
  - rewrite Z.ltb_irrefl. lia.
Qed.

Lemma issued_process_payment query method plan_index duration :
  keeps Inv any (process_payment query uid method plan_index duration).
Proof.
  unfold process_payment.
  eapply (keeps_bind _ (fun plan => plan ∈ PLANS_plans)).
  { apply keeps_lift. intros plan. apply py_index_elem. }
  intros plan P.
  eapply (keeps_bind _ (fun price => prices plan !! str duration = Some price)).
  { apply keeps_lift. intros price. unfold py_getitem.
    destruct (prices plan !! str duration); [intros [= ->]; reflexivity | discriminate]. }
  intros price Pr.
  destruct (String.eqb method "stars"); [ktail|].
  eapply (keeps_bind _ I); [apply keeps_connect | intros conn Ic].
  eapply (keeps_bind _ any); [kbase | intros current_time _].
  eapply (keeps_bind _ any); [kbase | intros result _].
  cbv zeta.
  eapply (keeps_bind _ I).
  { kissue. split; [reflexivity | exact (catalog_price_pos plan _ price P Pr)]. }
  intros conn1 Ic1.
  eapply (keeps_bind _ I).
  { kissue. split; [reflexivity|]. split; [exists plan; auto|].
    apply extension_after. }
  intros conn2 Ic2.
  eapply (keeps_bind _ any); [apply keeps_commit, Ic2 | intros _ _].
  ktail.
Qed.

Lemma issued_successful_payment_callback update :
  tg_id (payer update) = uid -> keeps Inv any (successful_payment_callback update).
Proof.
  intros E. unfold successful_payment_callback. rewrite E.
  eapply (keeps_bind _ any); [kbase | intros plan_index _].
  eapply (keeps_bind _ any); [kbase | intros duration _].
  eapply (keeps_bind _ (fun plan => plan ∈ PLANS_plans)).
  { apply keeps_lift. intros plan. apply py_index_elem. }
  intros plan P.
  eapply (keeps_bind _ (fun price => prices plan !! str duration = Some price)).
  { apply keeps_lift. intros price. unfold py_getitem.
    destruct (prices plan !! str duration); [intros [= ->]; reflexivity | discriminate]. }
  intros price Pr.
  pose proof (catalog_price_pos plan _ price P Pr) as Pos.
  eapply (keeps_bind _ I); [apply keeps_connect | intros conn Ic].
  eapply (keeps_bind _ any); [kbase | intros current_time _].
  eapply (keeps_bind _ any); [kbase | intros result _].
  cbv zeta.
  eapply (keeps_bind _ I).
  { kissue. split; [reflexivity | exact Pos]. }
  intros conn1 Ic1.
  eapply (keeps_bind _ I).
  { kissue. split; [reflexivity|]. split; [exists plan; auto|].
    apply extension_after. }
  intros conn2 Ic2.
  eapply (keeps_bind _ any); [kbase | intros created _].
  eapply (keeps_bind _ I).
  { kissue. repeat split. exact Pos. }
  intros conn3 Ic3.
  eapply (keeps_bind _ any); [apply keeps_commit, Ic3 | intros _ _].
  ktail.
Qed.

Lemma issued_start config update :
  keeps Inv any (start config update).
Proof.
  unfold start.
  eapply (keeps_bind _ any); [kbase | intros [u|] _].
  - ktail.
  - eapply (keeps_bind _ any); [|intros _ _; kbase].
    destruct (match args update with [] => None | a0 :: _ => _ end) as [r|]; [|kbase].
    destruct (truthy r); [|kbase].
    apply keeps_remember. exact Logic.I.
Qed.

Lemma issued_button_handler config query :
  tg_id (from_user query) = uid -> keeps Inv any (button_handler config query).
Proof.
  intros E. unfold button_handler. rewrite E.
  eapply (keeps_bind _ any); [kbase | intros _ _]. cbv zeta.
  destruct (startswith (data query) "lang_").
  { eapply (keeps_bind _ any); [kbase | intros lang _].
    eapply (keeps_bind _ any); [kbase | intros [u|] _].
    - eapply (keeps_bind _ any); [apply issued_set_language | intros _ _]. ktail.
    - eapply keeps_bind; [apply keeps_pending | intros referrer _].
      eapply (keeps_bind _ any); [apply issued_create_user | intros _ _]. ktail. }
  destruct (String.eqb (data query) "change_lang"); [ktail|].
  destruct (String.eqb (data query) "trial"); [apply issued_handle_trial, E|].
  destruct (String.eqb (data query) "plans"); [ktail|].
  destruct (startswith (data query) "plan_"); [ktail|].
  destruct (startswith (data query) "dur_"); [ktail|].
  destruct (startswith (data query) "pay_").
  { eapply (keeps_bind _ any); [kbase | intros method _].
    eapply (keeps_bind _ any); [kbase | intros plan_index _].
    eapply (keeps_bind _ any); [kbase | intros duration _].
    apply issued_process_payment. }
  destruct (String.eqb (data query) "back_main"); ktail.
Qed.
End Issued.

(** Whatever holds of the store and survives the statements of the actor
    survives the turn. *)
Lemma turn_issued (I : Store -> Prop) config e w :
  (forall uid q s, actor e = Some uid -> issued_by uid q -> I s -> I (run_stmt q s)) ->
  I (db w) -> I (db (turn config e w)).
Proof.
  intros St Iw.
  assert (Inv0 : world_inv I any w) by (split; [exact Iw | intros; exact Logic.I]).
  destruct e as [u|q| |u|f]; cbn [turn]; cbn [actor] in St.
  - pose proof (issued_start I config u w Inv0) as K.
    destruct (start config u w) as [[a|x] w']; apply K.
  - pose proof (issued_button_handler I _ (fun q s => St _ q s eq_refl)
                  config q eq_refl w Inv0) as K.
    destruct (button_handler config q w) as [[a|x] w']; apply K.
  - exact Iw.
  - pose proof (issued_successful_payment_callback I _ (fun q s => St _ q s eq_refl)
                  u eq_refl w Inv0) as K.
    destruct (successful_payment_callback u w) as [[a|x] w']; apply K.
  - exact Iw.
Qed.

Lemma run_issued (I : Store -> Prop) config evs :
  (forall uid q s, issued_by uid q -> I s -> I (run_stmt q s)) ->
  forall w, I (db w) -> I (db (run config evs w)).
Proof.
  intros St. induction evs as [|e evs IH]; intros w Iw; [exact Iw|].
  cbn [run foldl]. apply IH. apply turn_issued; [|exact Iw].
  intros uid q s _. apply St.
Qed.

(** ** Isolation of identities *)

Lemma other_rows_stmt uid k q s :
  issued_by uid q -> k <> uid ->
  users (run_stmt q s) !! k = users s !! k /\
  subscriptions_of k (run_stmt q s) = subscriptions_of k s /\
  payments_of k (run_stmt q s) = payments_of k s.
Proof.
  intros Q N. unfold subscriptions_of, payments_of.
  destruct q; cbn [issued_by] in Q; cbn [run_stmt].
  - subst. destruct (users s !! uid) eqn:U; [auto|].
    cbn [set_users users subscriptions payments].
    rewrite lookup_insert_ne by congruence. auto.
  - subst. cbn [set_users users subscriptions payments].
    rewrite lookup_alter_ne by congruence. auto.
  - subst. cbn [set_users users subscriptions payments].
    rewrite lookup_alter_ne by congruence. auto.
  - destruct Q as [-> _]. cbn [set_users users subscriptions payments].
    rewrite lookup_alter_ne by congruence. auto.
  - destruct Q as [-> _]. cbn [users subscriptions payments].
    rewrite filter_app, filter_cons_False by (cbn; congruence).
    rewrite filter_nil, app_nil_r. auto.
  - destruct Q as [-> _]. cbn [users subscriptions payments].
    rewrite filter_app, filter_cons_False by (cbn; congruence).
    rewrite filter_nil, app_nil_r. auto.
Qed.

(** X8. A turn of one identity changes no row of another: the user row,
    the subscriptions and the payments of every other identity are after the
    turn what they were before, whatever the token, the payload or the
    failures of the store. *)
Theorem isolation config e w uid k :
  actor e = Some uid -> k <> uid ->
  users (db (turn config e w)) !! k = users (db w) !! k /\
  subscriptions_of k (db (turn config e w)) = subscriptions_of k (db w) /\
  payments_of k (db (turn config e w)) = payments_of k (db w).
Proof.
  intros A N.
  apply (turn_issued
    (fun s => users s !! k = users (db w) !! k /\
              subscriptions_of k s = subscriptions_of k (db w) /\
              payments_of k s = payments_of k (db w))); [|auto].
  intros uid' q s A' Q (U & S & P).
  assert (uid' = uid) as -> by congruence.
  destruct (other_rows_stmt uid k q s Q N) as (U' & S' & P').
  rewrite U', S', P'. auto.
Qed.

(** ** How a row evolves *)

Lemma identity_stmt uid k q s u0 :
  issued_by uid q ->
  (exists u, users s !! k = Some u /\ same_identity u u0 /\
             total_paid u0 <= total_paid u) ->
  exists u, users (run_stmt q s) !! k = Some u /\ same_identity u u0 /\
            total_paid u0 <= total_paid u.
Proof.
  intros Q (u & U & S & T).
  destruct q; cbn [issued_by] in Q; cbn [run_stmt set_users users]; eauto;
    try (rewrite lookup_alter; case_decide as E; [|eauto];
         subst; rewrite U; cbn; eexists; split; [reflexivity|];
         split; [exact S | cbn; lia]).
  destruct (users s !! uid0) eqn:U0; [eauto|].
  cbn [set_users users]. rewrite lookup_insert. case_decide as E; [|eauto].
  subst. congruence.
Qed.

(** X9. Along any run a row, once created, is never deleted and keeps its
    id, username, first name, creation time, referrer and blocked flag, and
    its total paid never decreases: a later [/start ref...] cannot give an
    existing user a referrer, the names are not refreshed, and nothing blocks
    a user. *)
Theorem row_evolution config evs w k u0 :
  users (db w) !! k = Some u0 ->
  exists u, users (db (run config evs w)) !! k = Some u /\
            same_identity u u0 /\ total_paid u0 <= total_paid u.
Proof.
  intros U.
  apply (run_issued
    (fun s => exists u, users s !! k = Some u /\ same_identity u u0 /\
                        total_paid u0 <= total_paid u)).
  - intros uid q s Q H. exact (identity_stmt uid k q s u0 Q H).
  - exists u0. split; [exact U|]. split; [repeat split | lia].
Qed.

(** ** The history tables *)

(** X10. Subscriptions and payments are append-only along any run: the
    rows present before are still there, in the same order and unchanged,
    and new rows come after them. *)
Theorem history_append_only config evs w :
  exists new_subscriptions new_payments,
    subscriptions (db (run config evs w)) = subscriptions (db w) ++ new_subscriptions /\
    payments (db (run config evs w)) = payments (db w) ++ new_payments.
Proof.
  apply (run_issued
    (fun s => exists ls lp, subscriptions s = subscriptions (db w) ++ ls /\
                            payments s = payments (db w) ++ lp)).
  - intros uid q s _ (ls & lp & S & P).
    destruct q; cbn [run_stmt set_users subscriptions payments]; eauto.
    + destruct (users s !! uid0); cbn [set_users subscriptions payments]; eauto.
    + rewrite S, <- app_assoc. eauto.
    + rewrite P, <- app_assoc. eauto.
  - exists [], []. rewrite !app_nil_r. auto.
Qed.

Lemma store_ok_stmt uid q s :
  issued_by uid q ->
  (forall k u, users s !! k = Some u -> user_ok k u) ->
  forall k u, users (run_stmt q s) !! k = Some u -> user_ok k u.
Proof.
  intros Q R k u.
  destruct q; cbn [issued_by] in Q; cbn [run_stmt set_users users]; try apply R.
  - destruct (users s !! uid0) eqn:U0; [apply R|].
    cbn [set_users users]. rewrite lookup_insert. case_decide as E; [|apply R].
    intros [= <-]. subst. unfold user_ok. cbn. repeat split; auto; lia.
  - rewrite lookup_alter. case_decide as E; [|apply R]. subst.
    destruct (users s !! k) as [u1|] eqn:U1; [|discriminate].
    intros [= <-]. exact (R _ _ U1).
  - rewrite lookup_alter. case_decide as E; [|apply R]. subst.
    destruct (users s !! k) as [u1|] eqn:U1; [|discriminate].
    intros [= <-]. destruct (R _ _ U1) as (A & B & C & D & _).
    unfold user_ok. cbn. repeat split; auto; discriminate.
  - rewrite lookup_alter. case_decide as E; [|apply R]. subst.
    destruct (users s !! k) as [u1|] eqn:U1; [|discriminate].
    intros [= <-]. destruct (R _ _ U1) as (A & B & C & D & _).
    unfold user_ok. cbn. repeat split; auto; try discriminate. lia.
Qed.

(** X11. In every reachable world each user row is well formed: it sits
    under its own id, is not blocked, has a trial flag of 0 or 1 and a
    non-negative total paid, and a row without entitlement has neither used
    the trial nor paid anything. *)
Theorem reachable_users_ok config w :
  reachable config w ->
  forall k u, users (db w) !! k = Some u -> user_ok k u.
Proof.
  induction 1 as [clock f | w e _ IH].
  - intros k u. cbn. rewrite lookup_empty. discriminate.
  - apply (turn_issued (fun s => forall k u, users s !! k = Some u -> user_ok k u));
      [|exact IH].
    intros uid q s _. apply store_ok_stmt.
Qed.

Lemma history_ok_stmt uid q s :
  issued_by uid q ->
  Forall subscription_ok (subscriptions s) /\ Forall payment_ok (payments s) ->
  Forall subscription_ok (subscriptions (run_stmt q s)) /\
  Forall payment_ok (payments (run_stmt q s)).
Proof.
  intros Q [S P].
  destruct q; cbn [issued_by] in Q; cbn [run_stmt set_users subscriptions payments];
    auto.
  - destruct (users s !! uid0); cbn [set_users subscriptions payments]; auto.
  - split; [|exact P]. apply Forall_app. split; [exact S|].
    constructor; [|constructor].
    destruct Q as (_ & (plan & Pl & Nm & Dv & Pr) & Ex).
    unfold subscription_ok. cbn.
    split; [exists plan; auto|].
    split; [exact (catalog_duration plan _ _ Pl Pr)|].
    split; [exact (catalog_price_pos plan _ _ Pl Pr)|]. auto.
  - split; [exact S|]. apply Forall_app. split; [exact P|].
    constructor; [|constructor].
    destruct Q as (_ & Pos & -> & ->). unfold payment_ok. cbn. auto.
Qed.

(** X12. In every reachable world each subscription row is one the catalog
    lists (plan name, devices, a duration of 30, 60, 180 or 365 days and its
    positive price), expires at least its duration after it started, is in
    USD and active; each payment row is a completed Stars payment of a
    positive amount. *)
Theorem reachable_history_ok config w :
  reachable config w ->
  Forall subscription_ok (subscriptions (db w)) /\
  Forall payment_ok (payments (db w)).
Proof.
  induction 1 as [clock f | w e _ IH].
  - split; constructor.
  - apply (turn_issued (fun s => Forall subscription_ok (subscriptions s) /\
                                 Forall payment_ok (payments s))); [|exact IH].
    intros uid q s _. apply history_ok_stmt.
Qed.

(** ** Turns that only read *)

Ltac kro :=
  kauto_with ltac:(first
    [ apply keeps_t | apply keeps_t_button | apply keeps_get_main_menu
    | apply keeps_get_subscription_status
    | apply keeps_show_plans | apply keeps_show_durations
    | apply keeps_show_payment_methods | apply keeps_back_to_main ]).

Lemma keeps_stars_invoice I query uid method plan_index duration :
  String.eqb method "stars" = true ->
  keeps (world_inv I any) any (process_payment query uid method plan_index duration).
Proof.
  intros M. unfold process_payment.
  eapply (keeps_bind _ any); [kbase | intros plan _].
  eapply (keeps_bind _ any); [kbase | intros price _].
  rewrite M. kro.
Qed.

Lemma keeps_navigation I config query :
  may_write (ev_button query) = false ->
  keeps (world_inv I any) any (button_handler config query).
Proof.
  cbn [may_write]. rewrite !orb_false_iff. intros [[L T] P].
  unfold button_handler.
  eapply (keeps_bind _ any); [kbase | intros _ _]. cbv zeta.
  rewrite L, T.
  destruct (String.eqb (data query) "change_lang"); [kro|].
  destruct (String.eqb (data query) "plans"); [kro|].
  destruct (startswith (data query) "plan_"); [kro|].
  destruct (startswith (data query) "dur_"); [kro|].
  destruct (startswith (data query) "pay_"); [|kro].
  cbn [andb] in P.
  destruct (py_index (split "_" (data query)) 1) as [method|x]; [|discriminate].
  eapply (keeps_bind _ (fun m => m = method)).
  { apply keeps_lift. intros a [= <-]. reflexivity. }
  intros m ->.
  eapply (keeps_bind _ any); [kbase | intros plan_index _].
  eapply (keeps_bind _ any); [kbase | intros duration _].
  apply keeps_stars_invoice. destruct (String.eqb method "stars"); [reflexivity|discriminate].
Qed.

(** X13. Only four kinds of turn can write the database: a language
    button, the trial button, a [pay_] button with a method other than
    [stars], and a payment completion. Every other turn ([/start], the
    menus, the plan, duration and payment-method screens, a Stars invoice,
    the pre-checkout answer, unknown and malformed tokens) leaves the
    database exactly as it was, whether it returns or raises and whatever
    the store does. *)
Theorem read_only_turns config e w :
  may_write e = false -> db (turn config e w) = db w.
Proof.
  intros M. destruct e as [u|q| |u|f]; cbn [turn]; try reflexivity.
  - apply keeps_db; [apply issued_start | reflexivity].
  - apply keeps_db; [apply keeps_navigation, M | reflexivity].
  - discriminate.
Qed.

(** ** Menu entries without a handler *)

Lemma button_handler_unrouted config query w :
  routed (data query) = false ->
  button_handler config query w = (Ok tt, answered w).
Proof.
  unfold routed. rewrite !orb_false_iff.
  intros (((((((L & C) & T) & P) & P') & D) & Y) & B).
  unfold button_handler. rewrite bind_eq, emit_eq. cbv beta iota zeta.
  rewrite L, C, T, P, P', D, Y, B. reflexivity.
Qed.

Lemma options_entries kb : options kb = snd <$> entries kb.
Proof.
  unfold options, entries. rewrite <- list_fmap_compose. reflexivity.
Qed.

(** X14. Of the entries of the main menu only Trial, Buy and Language have
    a handler. Every other entry it offers (About, Support, Account,
    Referral, Promo, Help, Admin) is ignored when pressed: the handler
    returns normally and the screen and the state stay as they are. Support
    is on the menu of every user. *)
Theorem dead_menu_entries config uid w :
  fault w = None ->
  exists kb,
    get_main_menu config uid w = (Ok kb, w) /\
    "support" ∈ options kb /\
    forall cb, cb ∈ options kb -> cb ∉ live_menu_actions ->
      forall query w1, data query = cb ->
        button_handler config query w1 = (Ok tt, answered w1).
Proof.
  intros F. destruct (get_main_menu_ok config uid w F) as (kb & E & K).
  exists kb. split; [exact E|]. rewrite options_entries, K.
  assert (O : forall menu,
    menu = pre_trial_menu \/ menu = post_trial_menu ->
    forall adm, adm = admin_entry \/ adm = [] ->
    "support" ∈ snd <$> localized (lang_of (db w) uid) (menu ++ adm) /\
    forall cb, cb ∈ snd <$> localized (lang_of (db w) uid) (menu ++ adm) ->
      cb ∉ live_menu_actions -> routed cb = false).
  { intros menu [->| ->] adm [->| ->]; cbn; (split; [set_solver|]);
      intros cb; rewrite !elem_of_cons; unfold live_menu_actions;
      rewrite !not_elem_of_cons;
      intros H (N1 & N2 & N3 & _);
      repeat (destruct H as [->|H]; [try contradiction; try reflexivity|]);
      inversion H. }
  assert (O' : exists menu adm,
    (menu = pre_trial_menu \/ menu = post_trial_menu) /\
    (adm = admin_entry \/ adm = []) /\
    (match users (db w) !! uid with
     | Some u => if is_trial_used u =? 0 then pre_trial_menu else post_trial_menu
     | None => pre_trial_menu
     end) ++ (if bool_decide (uid ∈ admin_ids config) then admin_entry else [])
    = menu ++ adm).
  { destruct (users (db w) !! uid) as [u|]; [destruct (is_trial_used u =? 0)|];
      destruct (bool_decide (uid ∈ admin_ids config));
      refine (ex_intro _ _ (ex_intro _ _ (conj _ (conj _ eq_refl)))); auto. }
  destruct O' as (menu & adm & Hm & Ha & ->).
  destruct (O menu Hm adm Ha)
    as [S D].
  split; [exact S|].
  intros cb In Nl query w1 Dq. apply button_handler_unrouted.
  rewrite Dq. exact (D cb In Nl).
Qed.

(** ** Identities without a row *)

Lemma purchase_absent new_end price uid s :
  users s !! uid = None ->
  forall k, users (run_stmt (UPDATE_users_purchase new_end price uid) s) !! k
            = users s !! k.
Proof.
  intros U k. cbn [run_stmt set_users users]. rewrite lookup_alter.
  case_decide; [|reflexivity]. subst. rewrite U. reflexivity.
Qed.

(** X15. Nothing requires a row in [users]. For an identity that never
    chose a language, the trial button raises TypeError and changes
    nothing, while a demo purchase and a payment completion still append
    their subscription (and payment) row for that identity, dated from now,
    without creating a user row or recording the amount paid. *)
Theorem unregistered_identity w uid plan_index duration plan price :
  fault w = None ->
  users (db w) !! uid = None ->
  py_index PLANS_plans plan_index = Ok plan ->
  prices plan !! str duration = Some price ->
  let now := time w (ticks w) in
  (forall query, tg_id (from_user query) = uid ->
     handle_trial query w = (Raise TypeError, w)) /\
  (forall query method, String.eqb method "stars" = false ->
     exists w' r,
       process_payment query uid method plan_index duration w = (Ok tt, w') /\
       (forall k, users (db w') !! k = users (db w) !! k) /\
       subscriptions (db w') = subscriptions (db w) ++ [r] /\
       s_user_id r = uid /\ s_payment_method r = method /\
       s_expires_at r = now + timedelta_days duration /\
       payments (db w') = payments (db w)) /\
  (forall update,
     tg_id (payer update) = uid ->
     rbind (py_index (split "_" (invoice_payload update)) 1) py_int = Ok plan_index ->
     rbind (py_index (split "_" (invoice_payload update)) 3) py_int = Ok duration ->
     exists w' r p,
       successful_payment_callback update w = (Ok tt, w') /\
       (forall k, users (db w') !! k = users (db w) !! k) /\
       subscriptions (db w') = subscriptions (db w) ++ [r] /\
       payments (db w') = payments (db w) ++ [p] /\
       s_user_id r = uid /\ p_user_id p = uid /\
       s_expires_at r = now + timedelta_days duration).
Proof.
  intros F U P K now. split; [|split].
  - intros query <-. unfold handle_trial. hrun F. rewrite U. reflexivity.
  - intros query method M. unfold process_payment, py_getitem.
    hrun F. rewrite P. hrun F. rewrite K. hrun F. rewrite M. hrun F.
    rewrite U. cbn [mbind option_bind]. rewrite Z.ltb_irrefl.
    eexists _, _. split; [reflexivity|].
    cbn [db set_out set_db set_ticks]. split.
    + intros k. cbn [run_stmt users]. apply purchase_absent, U.
    + cbn [run_stmt set_users subscriptions payments]. repeat split.
  - intros update <- I1 I3. unfold successful_payment_callback, py_getitem.
    hrun F. rewrite I1. hrun F. rewrite I3. hrun F. rewrite P. hrun F. rewrite K.
    hrun F. rewrite U. cbn [mbind option_bind]. rewrite Z.ltb_irrefl.
    eexists _, _, _. split; [reflexivity|].
    cbn [db set_out set_db set_ticks]. split.
    + intros k. cbn [run_stmt users]. apply purchase_absent, U.
    + cbn [run_stmt set_users subscriptions payments]. repeat split.
Qed.

(** ** Configuration from the environment *)

Example admin_ids_sample :
  admin_ids_of (split "," "7, 8,x,-3,,9 ") = Ok [7; 8; 9] /\
  admin_ids_of (split "," "") = Ok [].
Proof. split; reflexivity. Qed.







(** ** The further properties on the sample session *)

Lemma callback_round_trip_witness :
  button_handler sample_config (press "plan_-1") registered
    = show_durations (press "plan_-1") (-1) (answered registered) /\
  button_handler sample_config (press "dur_2_60") registered
    = show_payment_methods (press "dur_2_60") 2 60 (answered registered) /\
  button_handler sample_config (press "pay_crypto_2_60") registered
    = process_payment (press "pay_crypto_2_60") 42 "crypto" 2 60 (answered registered).
Proof.
  split; [|split].
  - exact (proj1 (callback_round_trip sample_config (press "plan_-1") registered (-1) 0)
                 ltac:(vm_compute; reflexivity)).
  - exact (proj1 (proj2 (callback_round_trip sample_config (press "dur_2_60")
                           registered 2 60))
                 ltac:(vm_compute; reflexivity)).
  - refine (proj2 (proj2 (callback_round_trip sample_config (press "pay_crypto_2_60")
                            registered 2 60))
                  "crypto" _ ltac:(vm_compute; reflexivity)).
    rewrite !elem_of_cons. auto.
Defined.

Lemma purchase_screens_witness :
  renders (show_plans (press "plans")) registered
    ["plan_0"; "plan_1"; "plan_2"; "back_main"] /\
  renders (show_durations (press "plan_1") 1) registered
    ["dur_1_30"; "dur_1_60"; "dur_1_180"; "dur_1_365"; "plans"] /\
  renders (show_payment_methods (press "dur_1_60") 1 60) registered
    ["pay_stars_1_60"; "pay_card_1_60"; "pay_crypto_1_60"; "plan_1"].
Proof.
  destruct (purchase_screens (press "plans") registered ltac:(vm_compute; reflexivity))
    as (P & _).
  destruct (purchase_screens (press "plan_1") registered ltac:(vm_compute; reflexivity))
    as (_ & D & _).
  destruct (purchase_screens (press "dur_1_60") registered ltac:(vm_compute; reflexivity))
    as (_ & _ & M).
  split; [exact P|]. split.
  - exact (D 1 ltac:(lia)).
  - refine (M 1 60 ltac:(lia) _). unfold PLANS_durations. rewrite !elem_of_cons. auto.
Defined.




Lemma start_referral_capture_witness :
  (exists w',
     start sample_config {| effective_user := bob; args := ["ref42"] |} registered
       = (Ok tt, w') /\
     db w' = db registered /\
     user_data w' = <[7 := 42]> (user_data registered)) /\
  (exists w' message keyboard,
     start sample_config {| effective_user := alice; args := ["ref7"] |} registered
       = (Ok tt, w') /\
     db w' = db registered /\ user_data w' = user_data registered /\
     out w' = out registered ++ [reply_text message keyboard]).
Proof.
  split.
  - destruct (start_referral_capture sample_config
                {| effective_user := bob; args := ["ref42"] |} registered
                ltac:(vm_compute; reflexivity)) as (_ & Unknown & _).
    destruct (Unknown ltac:(vm_compute; reflexivity)
                ltac:(repeat constructor)) as (w' & E & D & _ & Ud).
    exists w'. repeat split; assumption.
  - destruct (start_referral_capture sample_config
                {| effective_user := alice; args := ["ref7"] |} registered
                ltac:(vm_compute; reflexivity)) as (Known & _).
    exact (Known alice_registered ltac:(vm_compute; reflexivity)).
Defined.


Lemma isolation_witness :
  users (db (turn sample_config (ev_button {| data := "pay_card_0_30"; from_user := bob |})
               subscribed)) !! 42
    = users (db subscribed) !! 42 /\
  subscriptions_of 42
    (db (turn sample_config (ev_button {| data := "pay_card_0_30"; from_user := bob |})
           subscribed))
    = subscriptions_of 42 (db subscribed).
Proof.
  destruct (isolation sample_config
              (ev_button {| data := "pay_card_0_30"; from_user := bob |})
              subscribed 7 42 ltac:(reflexivity) ltac:(discriminate))
    as (U & S & _).
  split; assumption.
Defined.

Lemma row_evolution_witness :
  exists u,
    users (db (run sample_config
                 [ev_start {| effective_user := alice; args := ["ref7"] |};
                  ev_button (press "lang_ru");
                  ev_button (press "pay_card_0_30")] registered)) !! 42 = Some u /\
    same_identity u alice_registered /\ 0 <= total_paid u.
Proof.
  exact (row_evolution sample_config
           [ev_start {| effective_user := alice; args := ["ref7"] |};
            ev_button (press "lang_ru"); ev_button (press "pay_card_0_30")]
           registered 42 alice_registered ltac:(vm_compute; reflexivity)).
Defined.

Lemma reachable_users_ok_witness : user_ok 42 alice_tried.
Proof.
  refine (reachable_users_ok sample_config tried _ 42 alice_tried
            ltac:(vm_compute; reflexivity)).
  exact (reach_turn sample_config _ (ev_button (press "trial"))
          (reach_turn sample_config _ (ev_button (press "pay_card_0_30"))
            (reach_turn sample_config _ (ev_button (press "lang_en"))
              (reach_turn sample_config _
                 (ev_start {| effective_user := alice; args := [] |})
                 (reach_initial sample_config still_clock None))))).
Defined.

Lemma reachable_history_ok_witness :
  Forall subscription_ok (subscriptions (db subscribed)) /\
  Forall payment_ok (payments (db subscribed)).
Proof.
  refine (reachable_history_ok sample_config subscribed _).
  exact (reach_turn sample_config _ (ev_button (press "pay_card_0_30"))
          (reach_turn sample_config _ (ev_button (press "lang_en"))
            (reach_turn sample_config _
               (ev_start {| effective_user := alice; args := [] |})
               (reach_initial sample_config still_clock None)))).
Defined.

Lemma read_only_turns_witness :
  db (turn sample_config (ev_button (press "pay_stars_1_60"))
        (set_fault (Some 2%nat) subscribed)) = db subscribed /\
  db (turn sample_config (ev_button (press "plan_abc")) subscribed) = db subscribed.
Proof.
  split.
  - exact (read_only_turns sample_config (ev_button (press "pay_stars_1_60"))
             (set_fault (Some 2%nat) subscribed) ltac:(vm_compute; reflexivity)).
  - exact (read_only_turns sample_config (ev_button (press "plan_abc")) subscribed
             ltac:(vm_compute; reflexivity)).
Defined.

Lemma dead_menu_entries_witness :
  exists kb,
    get_main_menu sample_config 42 tried = (Ok kb, tried) /\
    button_handler sample_config (press "account") tried = (Ok tt, answered tried).
Proof.
  destruct (dead_menu_entries sample_config 42 tried ltac:(vm_compute; reflexivity))
    as (kb & E & _ & Dead).
  exists kb. split; [exact E|].
  apply (Dead "account"); [|unfold live_menu_actions; rewrite !not_elem_of_cons;
                            repeat split; try discriminate; apply not_elem_of_nil
                           |reflexivity].
  pose proof E as K. vm_compute in K. injection K as K.
  rewrite <- K. cbn. rewrite !elem_of_cons. auto 10.
Defined.

Lemma unregistered_identity_witness :
  handle_trial (press "trial") (initial still_clock None)
    = (Raise TypeError, initial still_clock None) /\
  exists w' r,
    process_payment (press "pay_card_0_30") 42 "card" 0 30 (initial still_clock None)
      = (Ok tt, w') /\
    users (db w') !! 42 = None /\
    subscriptions (db w') = [r] /\ s_user_id r = 42.
Proof.
  destruct (unregistered_identity (initial still_clock None) 42 0 30 basic_plan 5
              ltac:(reflexivity) ltac:(vm_compute; reflexivity)
              ltac:(vm_compute; reflexivity) ltac:(vm_compute; reflexivity))
    as (Trial & Demo & _).
  split; [exact (Trial (press "trial") ltac:(reflexivity))|].
  destruct (Demo (press "pay_card_0_30") "card" ltac:(reflexivity))
    as (w' & r & E & U & S & I & _).
  exists w', r. split; [exact E|]. split; [rewrite U; reflexivity|].
  split; [exact S | exact I].
Defined.

